(** * authy: an OAuth2 client engine (christopherobin/authy)

    A shallow embedding of the Go sources: the [oauth2] package (token
    exchange, refresh, authorization URL), the [authy] package (session
    orchestration, the token entity, the authenticated transport), and the
    parts of Go's standard library they call ([strings], [strconv],
    [net/url]).  Go strings are byte strings: [string] here. *)

From Stdlib Require Import ZArith Ascii String List Lia.
From stdpp Require Import base option list gmap strings.

Local Open Scope string_scope.
Local Open Scope Z_scope.

(** ** Bytes *)

Definition byte_val (c : ascii) : Z := Z.of_N (N_of_ascii c).

Definition byte_between (lo hi c : ascii) : bool :=
  (byte_val lo <=? byte_val c) && (byte_val c <=? byte_val hi).

Definition is_empty (s : string) : bool :=
  match s with EmptyString => true | String _ _ => false end.

(** ** Package [strings] *)

Module Strings.

Fixpoint HasPrefix (s prefix : string) : bool :=
  match prefix, s with
  | EmptyString, _ => true
  | String p prefix', String c s' => Ascii.eqb p c && HasPrefix s' prefix'
  | String _ _, EmptyString => false
  end.

(** [strings.Contains(s, substr)]. *)
Fixpoint Contains (s substr : string) : bool :=
  HasPrefix s substr ||
  match s with
  | EmptyString => false
  | String _ s' => Contains s' substr
  end.

(** [strings.Join(elems, sep)]. *)
Fixpoint Join (elems : list string) (sep : string) : string :=
  match elems with
  | [] => ""
  | [e] => e
  | e :: rest => e +:+ sep +:+ Join rest sep
  end.

(** Width in bytes of the UTF-8 sequence that starts [s], as
    [utf8.DecodeRuneInString] reports it: an invalid or short sequence has
    width 1. *)
Definition rune_width (s : string) : nat :=
  let cont := byte_between "128" "191" in
  match s with
  | EmptyString => 0%nat
  | String b0 rest =>
      let second lo hi :=
        match rest with
        | String b1 rest1 => if byte_between lo hi b1 then Some rest1 else None
        | EmptyString => None
        end in
      let more k tail :=
        (fix go (k : nat) (t : string) : bool :=
           match k with
           | O => true
           | S k' => match t with
                     | String b t' => cont b && go k' t'
                     | EmptyString => false
                     end
           end) k tail in
      let seq (n : nat) lo hi :=
        match second lo hi with
        | Some tail => if more (n - 2)%nat tail then n else 1%nat
        | None => 1%nat
        end in
      if byte_val b0 <? 128 then 1%nat
      else if byte_between "194" "223" b0 then seq 2%nat "128"%char "191"%char
      else if Ascii.eqb b0 "224" then seq 3%nat "160"%char "191"%char
      else if Ascii.eqb b0 "237" then seq 3%nat "128"%char "159"%char
      else if byte_between "225" "239" b0 then seq 3%nat "128"%char "191"%char
      else if Ascii.eqb b0 "240" then seq 4%nat "144"%char "191"%char
      else if byte_between "241" "243" b0 then seq 4%nat "128"%char "191"%char
      else if Ascii.eqb b0 "244" then seq 4%nat "128"%char "143"%char
      else 1%nat
  end.

(** [explode(s, -1)]: [s] cut into its UTF-8 sequences. [skip] counts the
    bytes of the current sequence still to be taken. *)
Fixpoint explode_go (skip : nat) (cur : string) (s : string) : list string :=
  match s with
  | EmptyString => if is_empty cur then [] else [cur]
  | String c s' =>
      match skip with
      | S k => explode_go k (cur +:+ String c "") s'
      | O =>
          ((if is_empty cur then [] else [cur])
             ++ explode_go (rune_width s - 1) (String c "") s')%list
      end
  end.

(** [genSplit(s, sep, 0, -1)] for a non-empty [sep]: the pieces of [s]
    between the non-overlapping occurrences of [sep], found left to right.
    [skip] counts the bytes of a matched separator still to be dropped. *)
Fixpoint split_go (sep : string) (skip : nat) (cur : string) (s : string)
  : list string :=
  match s with
  | EmptyString => [cur]
  | String c s' =>
      match skip with
      | S k => split_go sep k cur s'
      | O =>
          if HasPrefix s sep
          then cur :: split_go sep (String.length sep - 1) "" s'
          else split_go sep 0 (cur +:+ String c "") s'
      end
  end.

(** [strings.Split(s, sep)]. *)
Definition Split (s sep : string) : list string :=
  if is_empty sep then explode_go 0 "" s else split_go sep 0 "" s.

(** [strings.Replace(s, old, new, -1)] for a non-empty [old]: every
    non-overlapping occurrence of [old], left to right, becomes [new]. *)
Definition Replace (s old new : string) : string :=
  Join (split_go old 0 "" s) new.

End Strings.

(** ** Package [strconv] *)

Module Strconv.

Inductive NumError := ErrSyntax | ErrRange.

Definition maxUint64 : Z := 2 ^ 64 - 1.

(** The digit loop of [ParseUint(s, 10, bitSize)]; [maxVal = 2^bitSize - 1]. *)
Fixpoint parseUint_loop (maxVal : Z) (n : Z) (s : string) : Z * option NumError :=
  match s with
  | EmptyString => (n, None)
  | String c s' =>
      if byte_between "0" "9" c then
        let d := byte_val c - byte_val "0" in
        if n >=? maxUint64 / 10 + 1 then (maxVal, Some ErrRange)
        else
          let n10 := n * 10 in
          let n1 := (n10 + d) mod 2 ^ 64 in
          if (n1 <? n10) || (n1 >? maxVal) then (maxVal, Some ErrRange)
          else parseUint_loop maxVal n1 s'
      else (0, Some ErrSyntax)
  end.

Definition ParseUint10 (s : string) (bitSize : Z) : Z * option NumError :=
  if is_empty s then (0, Some ErrSyntax)
  else parseUint_loop (2 ^ bitSize - 1) 0 s.

(** [strconv.ParseInt(s, 10, bitSize)] for [0 < bitSize <= 64]. *)
Definition ParseInt10 (s : string) (bitSize : Z) : Z * option NumError :=
  match s with
  | EmptyString => (0, Some ErrSyntax)
  | String c0 rest =>
      let '(neg, digits) :=
        if Ascii.eqb c0 "+" then (false, rest)
        else if Ascii.eqb c0 "-" then (true, rest)
        else (false, s) in
      match ParseUint10 digits bitSize with
      | (_, Some ErrSyntax) => (0, Some ErrSyntax)
      | (un, _) =>
          let cutoff := 2 ^ (bitSize - 1) in
          if negb neg && (un >=? cutoff) then (cutoff - 1, Some ErrRange)
          else if neg && (un >? cutoff) then (- cutoff, Some ErrRange)
          else (if neg then - un else un, None)
      end
  end.

End Strconv.

(** ** Package [net/url] *)

Module Url.

(** [url.Values]: a [map[string][]string]. *)
Abbreviation Values := (gmap string (list string)).

Definition Get (v : Values) (key : string) : string :=
  match v !! key with
  | Some (x :: _) => x
  | _ => ""
  end.

Definition Set_ (v : Values) (key value : string) : Values :=
  <[key := [value]]> v.

Definition Add (v : Values) (key value : string) : Values :=
  <[key := (default [] (v !! key) ++ [value])%list]> v.

(** The comma-ok lookup [_, ok := v[key]]. *)
Definition Has (v : Values) (key : string) : bool :=
  bool_decide (is_Some (v !! key)).

Inductive encoding := encodePath | encodeHost | encodeQueryComponent.

Definition byte_in (c : ascii) (s : string) : bool :=
  existsb (Ascii.eqb c) (list_ascii_of_string s).

Definition shouldEscape (c : ascii) (mode : encoding) : bool :=
  if byte_between "a" "z" c || byte_between "A" "Z" c || byte_between "0" "9" c
  then false
  else if match mode with encodeHost => byte_in c "!$&'()*+,;=:[]<>" || Ascii.eqb c "034"
          | _ => false end
  then false
  else if byte_in c "-_.~" then false
  else if byte_in c "$&+,/:;=?@" then
    match mode with
    | encodePath => Ascii.eqb c "?"
    | encodeQueryComponent => true
    | encodeHost => true
    end
  else true.

Definition upperhex (n : Z) : ascii :=
  nth (Z.to_nat n) (list_ascii_of_string "0123456789ABCDEF") "0"%char.

Fixpoint escape (s : string) (mode : encoding) : string :=
  match s with
  | EmptyString => ""
  | String c s' =>
      if Ascii.eqb c " " && match mode with encodeQueryComponent => true | _ => false end
      then String "+" (escape s' mode)
      else if shouldEscape c mode
      then String "%" (String (upperhex (Z.shiftr (byte_val c) 4))
                         (String (upperhex (Z.land (byte_val c) 15)) (escape s' mode)))
      else String c (escape s' mode)
  end.

Definition QueryEscape (s : string) : string := escape s encodeQueryComponent.

Definition ishex (c : ascii) : bool :=
  byte_between "0" "9" c || byte_between "a" "f" c || byte_between "A" "F" c.

Definition unhex (c : ascii) : Z :=
  if byte_between "0" "9" c then byte_val c - byte_val "0"
  else if byte_between "a" "f" c then byte_val c - byte_val "a" + 10
  else if byte_between "A" "F" c then byte_val c - byte_val "A" + 10
  else 0.

Definition byte_of (n : Z) : ascii := ascii_of_N (Z.to_N n).

(** [url.QueryUnescape]: [None] stands for the [EscapeError]. *)
Fixpoint QueryUnescape (s : string) : option string :=
  match s with
  | EmptyString => Some ""
  | String c s' =>
      if Ascii.eqb c "%" then
        match s' with
        | String h1 (String h2 rest) =>
            if ishex h1 && ishex h2
            then String (byte_of (Z.lor (Z.shiftl (unhex h1) 4) (unhex h2)))
                   <$> QueryUnescape rest
            else None
        | _ => None
        end
      else if Ascii.eqb c "+" then String " " <$> QueryUnescape s'
      else String c <$> QueryUnescape s'
  end.

Fixpoint insert_sorted (k : string) (l : list string) : list string :=
  match l with
  | [] => [k]
  | x :: l' => if String.leb k x then k :: l else x :: insert_sorted k l'
  end.

(** The keys of a map in increasing byte order, as [slices.Sort] leaves
    them. *)
Definition sorted_keys (v : Values) : list string :=
  foldr insert_sorted [] (map fst (map_to_list v)).

(** [Values.Encode]: "k=v" pairs joined by "&", keys sorted. *)
Definition Encode (v : Values) : string :=
  Strings.Join
    (flat_map (fun k =>
                 map (fun x => QueryEscape k +:+ "=" +:+ QueryEscape x)
                     (default [] (v !! k)))
              (sorted_keys v))
    "&".

(** [strings.Cut(s, "=")]. *)
Fixpoint cut_eq (s : string) : string * string :=
  match s with
  | EmptyString => ("", "")
  | String c s' =>
      if Ascii.eqb c "=" then ("", s')
      else let '(k, v) := cut_eq s' in (String c k, v)
  end.

Inductive ParseError := InvalidSemicolon | EscapeError.

(** One turn of the loop of [parseQuery] on the segment [seg]. *)
Definition parseQuery_step (acc : Values * option ParseError) (seg : string)
  : Values * option ParseError :=
  let '(m, err) := acc in
  if Strings.Contains seg ";" then (m, Some InvalidSemicolon)
  else if is_empty seg then (m, err)
  else
    let '(key, value) := cut_eq seg in
    let first_err := match err with None => Some EscapeError | _ => err end in
    match QueryUnescape key with
    | None => (m, first_err)
    | Some key' =>
        match QueryUnescape value with
        | None => (m, first_err)
        | Some value' => (Add m key' value', err)
        end
    end.

(** [url.ParseQuery]: the map comes back with whatever parsed, together
    with the error if any. *)
Definition ParseQuery (query : string) : Values * option ParseError :=
  if is_empty query then (∅, None)
  else fold_left parseQuery_step (Strings.split_go "&" 0 "" query) (∅, None).

(** [url.URL], for URLs with neither opaque part, user info nor fragment
    (those fields stay at their zero value here, and [RawPath] is empty). *)
Record URL := mkURL {
  Scheme : string;
  Host : string;
  Path : string;
  RawQuery : string;
}.

(** [URL.String] on such a URL. *)
Definition String_ (u : URL) : string :=
  let path := if String.eqb (Path u) "*" then "*" else escape (Path u) encodePath in
  (if is_empty (Scheme u) then "" else Scheme u +:+ ":")
  +:+ (if negb (is_empty (Scheme u)) || negb (is_empty (Host u))
       then (if negb (is_empty (Host u)) || negb (is_empty (Path u)) then "//" else "")
            +:+ (if is_empty (Host u) then "" else escape (Host u) encodeHost)
       else "")
  +:+ (if negb (is_empty path) && negb (Strings.HasPrefix path "/")
          && negb (is_empty (Host u))
       then "/" else "")
  +:+ (if is_empty (Scheme u) && is_empty (Host u)
          && Strings.Contains (hd "" (Strings.split_go "/" 0 "" path)) ":"
       then "./" else "")
  +:+ path
  +:+ (if is_empty (RawQuery u) then "" else "?" +:+ RawQuery u).

(** [URL.Query]: the parsed [RawQuery], errors dropped. *)
Definition Query (u : URL) : Values := fst (ParseQuery (RawQuery u)).

(** [URL.RequestURI] on such a URL: the escaped path, "/" when it is
    empty, then the query if any. *)
Definition RequestURI (u : URL) : string :=
  let path := if String.eqb (Path u) "*" then "*" else escape (Path u) encodePath in
  (if is_empty path then "/" else path)
  +:+ (if is_empty (RawQuery u) then "" else "?" +:+ RawQuery u).

End Url.

(** ** Package [time] *)

Module Time.

(** An instant, in nanoseconds since the epoch; the clock is read by the
    caller and passed down as [now]. *)
Definition Time := Z.

(** [time.Duration]: an [int64] count of nanoseconds. *)
Definition Duration := Z.

Definition wrap64 (z : Z) : Z := (z + 2 ^ 63) mod 2 ^ 64 - 2 ^ 63.

Definition Second : Duration := 1000000000.

Definition mul (a b : Duration) : Duration := wrap64 (a * b).

Definition Add (t : Time) (d : Duration) : Time := t + d.

(** [t.After(u)]. *)
Definition After (t u : Time) : bool := u <? t.

End Time.

(** ** Package [provider] *)

Module ProviderData.

(** Modelled from the spec: the [provider] package (the static registry and
    the configuration types) is not among the sources.  A registry entry,
    with the fields the spec lists for ProviderConfig, under the names
    [oauth2] and [authy] use for them. *)
Record t := mk {
  Name : string;
  AuthorizeURL : string;
  AccessURL : string;
  OAuth : Z;
  ScopeDelimiter : string;
  Subdomain : bool;
  CustomParameters : list string;
}.

End ProviderData.

Module ProviderConfig.

(** Modelled from the spec: [provider.ProviderConfig], the per-provider
    client parameters together with the registry entry [Provider]. *)
Record t := mk {
  Provider : ProviderData.t;
  Key : string;
  Secret : string;
  Scope : list string;
  State : string;
  Subdomain : string;
  Callback : string;
  CustomParameters : gmap string string;
}.

Definition with_State (c : t) (state : string) : t :=
  mk (Provider c) (Key c) (Secret c) (Scope c) state (Subdomain c)
     (Callback c) (CustomParameters c).


End ProviderConfig.

(** ** Package [net/http]: what the engine reads of an inbound request *)

Module Http.

Record Request := mkRequest {
  Host : string;
  URL : Url.URL;
  Header : gmap string (list string);
  TLS : bool;   (* [r.TLS != nil] *)
}.

End Http.

(** ** Package [oauth2] *)

Module OAuth2.

Record Token := mkToken {
  AccessToken : string;
  Scope : list string;
  Type_ : string;
  Expires : option Time.Time;
  RefreshToken : string;
}.

(** The zero value of [Token]: what a named result holds until assigned. *)
Definition zero_Token : Token := mkToken "" [] "" None "".

Record Error := mkError {
  Code : string;
  Description : string;
  URI : string;
  Raw : Url.Values;
}.

(** Go's [error] values that travel through the engine. *)
Inductive error :=
| errors_New (msg : string)           (* errors.New *)
| oauth2_Error (e : Error)            (* oauth2.Error *)
| url_EscapeError (e : Url.ParseError) (* from url.ParseQuery *)
| lib_error (msg : string).           (* net/http, io, crypto/rand, url.Parse *)

(** The request structs, through [query.Values] (go-querystring): one
    [Add] per field under its [url] tag; an [omitempty] field that is
    empty is left out. *)
Definition add_omitempty (v : Url.Values) (name value : string) : Url.Values :=
  if is_empty value then v else Url.Add v name value.

Record authorizationRequest := {
  ar_ClientId : string;
  ar_ResponseType : string;
  ar_RedirectURI : string;
  ar_Scope : string;
  ar_State : string;
}.

Definition query_Values_authorizationRequest (q : authorizationRequest) : Url.Values :=
  let v := Url.Add ∅ "client_id" (ar_ClientId q) in
  let v := Url.Add v "response_type" (ar_ResponseType q) in
  let v := add_omitempty v "redirect_uri" (ar_RedirectURI q) in
  let v := add_omitempty v "scope" (ar_Scope q) in
  add_omitempty v "state" (ar_State q).

Record accessTokenRequest := {
  at_ClientId : string;
  at_ClientSecret : string;
  at_GrantType : string;
  at_Code : string;
  at_RedirectURI : string;
}.

Definition query_Values_accessTokenRequest (q : accessTokenRequest) : Url.Values :=
  let v := Url.Add ∅ "client_id" (at_ClientId q) in
  let v := Url.Add v "client_secret" (at_ClientSecret q) in
  let v := Url.Add v "grant_type" (at_GrantType q) in
  let v := Url.Add v "code" (at_Code q) in
  add_omitempty v "redirect_uri" (at_RedirectURI q).

Record refreshTokenRequest := {
  rt_GrantType : string;
  rt_RefreshToken : string;
}.

Definition query_Values_refreshTokenRequest (q : refreshTokenRequest) : Url.Values :=
  let v := Url.Add ∅ "grant_type" (rt_GrantType q) in
  Url.Add v "refresh_token" (rt_RefreshToken q).

Fixpoint filter_bytes (keep : ascii -> bool) (s : string) : string :=
  match s with
  | EmptyString => ""
  | String c s' => if keep c then String c (filter_bytes keep s') else filter_bytes keep s'
  end.

Definition printable (c : ascii) : bool := byte_between " " "~" c.

(** [errorTextRe.ReplaceAllString(s, "")]: the pattern matches every rune
    outside ASCII [[:print:]] and the backslash, so what stays is the
    printable ASCII bytes other than the backslash. *)
Definition errorTextRe_strip (s : string) : string :=
  filter_bytes (fun c => printable c && negb (Ascii.eqb c "\")) s.

(** [errorURIRe.ReplaceAllString(s, "")]: as above, and the space goes too. *)
Definition errorURIRe_strip (s : string) : string :=
  filter_bytes (fun c => printable c && negb (Ascii.eqb c "\") && negb (Ascii.eqb c " ")) s.

Definition NewError (response : Url.Values) : Error :=
  let code := errorTextRe_strip (Url.Get response "error") in
  if is_empty code then
    mkError "invalid_response"
            "The response generated by the server could not be parsed by Authy"
            "" response
  else
    mkError code
            (errorTextRe_strip (Url.Get response "error_description"))
            (errorURIRe_strip (Url.Get response "error_uri"))
            response.

Definition Error_Error (err : Error) : string :=
  Code err
  +:+ (if is_empty (Description err) then "" else ": " +:+ Description err)
  +:+ (if is_empty (URI err) then "" else " (see " +:+ URI err +:+ ")").

Definition genCallbackURL (config : ProviderConfig.t) (r : Http.Request) : string :=
  let scheme :=
    if Http.TLS r || bool_decide (is_Some (Http.Header r !! "X-HTTPS"))
    then "https" else "http" in
  Url.String_ (Url.mkURL scheme (Http.Host r) (Url.Path (Http.URL r) +:+ "/callback") "").

Definition hexdigit (n : Z) : ascii :=
  nth (Z.to_nat n) (list_ascii_of_string "0123456789abcdef") "0"%char.

(** [hex.EncodeToString]. *)
Fixpoint hex_EncodeToString (src : string) : string :=
  match src with
  | EmptyString => ""
  | String c s' =>
      String (hexdigit (Z.shiftr (byte_val c) 4))
        (String (hexdigit (Z.land (byte_val c) 15)) (hex_EncodeToString s'))
  end.

(** [NewState]; [rand_Read] is what [crypto/rand.Read] did with the
    16-byte buffer: the bytes it wrote, or its error. *)
Definition NewState (rand_Read : string + error) : string * option error :=
  match rand_Read with
  | inr err => ("", Some err)
  | inl rawState => (hex_EncodeToString rawState, None)
  end.

Definition set_custom (params : gmap string string) (values : Url.Values) (name : string)
  : Url.Values :=
  match params !! name with
  | Some value => Url.Set_ values name value
  | None => values
  end.

Section Engine.

(** [url.Parse], left to the standard library. *)
Variable url_Parse : string -> Url.URL + error.

(** The provider's end of [http.PostForm] followed by [ioutil.ReadAll]: the
    response body for a form posted to a URL, or the error of either call. *)
Variable http_PostForm : string -> Url.Values -> string + error.

(** The clock reading [time.Now()] returns. *)
Variable now : Time.Time.

(** The [values] of [AuthorizeURL] once the custom parameters are applied. *)
Definition authorize_values (config : ProviderConfig.t) (r : Http.Request) : Url.Values :=
  let P := ProviderConfig.Provider config in
  let values := query_Values_authorizationRequest {|
    ar_ClientId := ProviderConfig.Key config;
    ar_ResponseType := "code";
    ar_RedirectURI := genCallbackURL config r;
    ar_Scope := Strings.Join (ProviderConfig.Scope config) (ProviderData.ScopeDelimiter P);
    ar_State := ProviderConfig.State config |} in
  if bool_decide (0 < size (ProviderConfig.CustomParameters config))%nat
  then fold_left (set_custom (ProviderConfig.CustomParameters config))
                 (ProviderData.CustomParameters P) values
  else values.

Definition AuthorizeURL (config : ProviderConfig.t) (r : Http.Request)
  : string * option error :=
  let P := ProviderConfig.Provider config in
  let baseUrl := ProviderData.AuthorizeURL P in
  if ProviderData.Subdomain P && is_empty (ProviderConfig.Subdomain config) then
    ("", Some (errors_New ("provider " +:+ ProviderData.Name P
                           +:+ " expects the config to contain your subdomain")))
  else
    let baseUrl :=
      if ProviderData.Subdomain P
      then Strings.Replace baseUrl "[subdomain]" (ProviderConfig.Subdomain config)
      else baseUrl in
    match url_Parse baseUrl with
    | inr err => ("", Some err)
    | inl authUrl =>
        let values := authorize_values config r in
        (Url.String_ (Url.mkURL (Url.Scheme authUrl) (Url.Host authUrl)
                                (Url.Path authUrl) (Url.Encode values)),
         None)
    end.

Definition parseTokenResponse (config : ProviderConfig.t) (values : Url.Values)
  : Token * option error :=
  let token := mkToken (Url.Get values "access_token") []
                       (Url.Get values "token_type") None
                       (Url.Get values "refresh_token") in
  if is_empty (AccessToken token) || is_empty (Type_ token) then
    (token,
     Some (oauth2_Error
             (mkError "invalid_response"
                      "The response returned by the server couldn't be parsed by Authy"
                      "" values)))
  else
    let scope := Url.Get values "scope" in
    let token :=
      if negb (is_empty scope)
      then mkToken (AccessToken token)
             (Strings.Split scope (ProviderData.ScopeDelimiter (ProviderConfig.Provider config)))
             (Type_ token) (Expires token) (RefreshToken token)
      else token in
    let expires_in := Url.Get values "expires_in" in
    let token :=
      if negb (is_empty expires_in) then
        match Strconv.ParseInt10 expires_in 32 with
        | (to_add, Some _) =>            (* the branch taken when [err != nil] *)
            let expires := Time.Add now (Time.mul to_add Time.Second) in
            mkToken (AccessToken token) (Scope token) (Type_ token)
                    (Some expires) (RefreshToken token)
        | (_, None) => token
        end
      else token in
    (token, None).

(** A form posted to the provider: the URL and the form values. *)
Definition Posted : Type := string * Url.Values.

(** What follows the post in [GetAccessToken] and in [Refresh] alike. *)
Definition read_token (config : ProviderConfig.t) (reply : string + error)
  : Token * option error :=
  match reply with
  | inr err => (zero_Token, Some err)
  | inl body =>
      match Url.ParseQuery body with
      | (_, Some e) => (zero_Token, Some (url_EscapeError e))
      | (values, None) =>
          if Url.Has values "error"
          then (zero_Token, Some (oauth2_Error (NewError values)))
          else parseTokenResponse config values
      end
  end.

(** [GetAccessToken]: the form it posts, and what it returns. *)
Definition GetAccessToken (config : ProviderConfig.t) (r : Http.Request)
  : list Posted * (Token * option error) :=
  let queryValues := query_Values_accessTokenRequest {|
    at_ClientId := ProviderConfig.Key config;
    at_ClientSecret := ProviderConfig.Secret config;
    at_Code := Url.Get (Url.Query (Http.URL r)) "code";
    at_GrantType := "authorization_code";
    at_RedirectURI := genCallbackURL config r |} in
  let accessURL := ProviderData.AccessURL (ProviderConfig.Provider config) in
  ([(accessURL, queryValues)],
   read_token config (http_PostForm accessURL queryValues)).

(** [Refresh]: [token] is the named result, still at its zero value when
    the request is built. *)
Definition Refresh (config : ProviderConfig.t) (originalToken : Token)
  : list Posted * (Token * option error) :=
  let token := zero_Token in
  let queryValues := query_Values_refreshTokenRequest {|
    rt_GrantType := "refresh_token";
    rt_RefreshToken := RefreshToken token |} in
  let accessURL := ProviderData.AccessURL (ProviderConfig.Provider config) in
  ([(accessURL, queryValues)],
   read_token config (http_PostForm accessURL queryValues)).

End Engine.

End OAuth2.

(** ** Calls that can panic *)

Inductive outcome (A : Type) :=
| Returns (a : A)
| Panics (msg : string).

Arguments Returns {A} a.
Arguments Panics {A} msg.

(** ** Package [authy] *)

Module Authy.

(** Modelled from the spec: the [Session] interface (its declaration is not
    among the sources): [Get(key)] gives the stored value or nil,
    [Set(key, value)] stores, [Delete(key)] removes.  The values are Go
    [interface{}] values, here with their dynamic type. *)
Inductive value :=
| VString (s : string)
| VBytes (b : string)
| VInt (n : Z).

Abbreviation Session := (gmap string value).

Definition Session_Get (session : Session) (key : string) : option value :=
  session !! key.

Definition Session_Set (session : Session) (key : string) (v : value) : Session :=
  <[key := v]> session.

Definition Session_Delete (session : Session) (key : string) : Session :=
  delete key session.

(** Modelled from the spec: [Config] (its declaration is not among the
    sources), with the fields the engine reads. *)
Record Config := mkConfig {
  Callback : string;
  Providers : gmap string ProviderConfig.t;
}.

Record Authy := mkAuthy {
  config : Config;
  providers : gmap string ProviderConfig.t;
}.

Record Token := mkToken {
  authy : Authy;
  Version : Z;
  Provider : string;
  Value : string;
  Scope : list string;
  Type_ : string;
  Expires : option Time.Time;
  RefreshToken : string;
}.

Definition tokenFromOAuth2 (a : Authy) (provider : string) (t : OAuth2.Token) : Token :=
  mkToken a 2 provider (OAuth2.AccessToken t) (OAuth2.Scope t) (OAuth2.Type_ t)
          (OAuth2.Expires t) (OAuth2.RefreshToken t).

(** The method [oauth2] of [Token]. *)
Definition Token_oauth2 (t : Token) : OAuth2.Token :=
  OAuth2.mkToken (Value t) (Scope t) (Type_ t) (Expires t) (RefreshToken t).

(** The method [Expired] of [Token], at the clock reading [now]. *)
Definition Expired (now : Time.Time) (t : Token) : bool :=
  match Expires t with
  | None => false
  | Some expires => Time.After now expires
  end.

Definition IsRefreshable (t : Token) : bool :=
  (Version t =? 2) && negb (is_empty (RefreshToken t)).




Section Engine.

Variable url_Parse : string -> Url.URL + OAuth2.error.
Variable http_PostForm : string -> Url.Values -> string + OAuth2.error.
Variable now : Time.Time.

(** The method [Refresh] of [Token]: the token after the call, the forms posted, and
    the error returned. *)
Definition Refresh (t : Token) : Token * list OAuth2.Posted * option OAuth2.error :=
  if negb (IsRefreshable t) then
    (t, [], Some (OAuth2.errors_New "Token cannot be refreshed"))
  else
    match providers (authy t) !! Provider t with
    | None => (t, [], Some (OAuth2.errors_New ("unknown provider " +:+ Provider t)))
    | Some providerConfig =>
        if Version t =? 2 then
          let '(posted, (newToken, err)) :=
            OAuth2.Refresh http_PostForm now providerConfig (Token_oauth2 t) in
          match err with
          | Some e => (t, posted, Some e)
          | None =>
              (mkToken (authy t) (Version t) (Provider t)
                       (OAuth2.AccessToken newToken) (Scope t)
                       (OAuth2.Type_ newToken) (OAuth2.Expires newToken)
                       (OAuth2.RefreshToken newToken),
               posted, None)
          end
        else (t, [], None)
    end.

Definition state_key (providerName : string) : string :=
  "authy." +:+ providerName +:+ ".state".

Definition scope_key (state : string) : string :=
  "authy." +:+ state +:+ ".scope".

(** [Authy.Authorize]; [rand_Read] is the random source's answer to
    [NewState].  The session after the call, and the results. *)
Definition Authorize (a : Authy) (rand_Read : string + OAuth2.error)
    (providerName : string) (session : Session) (r : Http.Request)
  : Session * (string * option OAuth2.error) :=
  match providers a !! providerName with
  | None => (session, ("", Some (OAuth2.errors_New ("unknown provider " +:+ providerName))))
  | Some providerConfig =>
      if ProviderData.OAuth (ProviderConfig.Provider providerConfig) =? 2 then
        match OAuth2.NewState rand_Read with
        | (_, Some err) => (session, ("", Some err))
        | (state, None) =>
            let session := Session_Set session (state_key providerName) (VString state) in
            let session :=
              Session_Set session (scope_key state)
                (VString (Strings.Join (ProviderConfig.Scope providerConfig) ",")) in
            let providerConfig := ProviderConfig.with_State providerConfig state in
            match OAuth2.AuthorizeURL url_Parse providerConfig r with
            | (_, Some err) => (session, ("", Some err))
            | (redirectUrl, None) => (session, (redirectUrl, None))
            end
        end
      else (session, ("", Some (OAuth2.errors_New "Not Implemented")))
  end.

(** The results of [Access]: the token pointer (nil as [None]), the
    redirect URL and the error. *)
Definition AccessResult : Type := option Token * string * option OAuth2.error.

Definition fail (msg : string) : outcome AccessResult :=
  Returns (None, "", Some (OAuth2.errors_New msg)).

(** [Authy.Access]: the session after the call, the forms posted, and the
    results, or the panic of a failed type assertion. *)
Definition Access (a : Authy) (providerName : string) (session : Session)
    (r : Http.Request) : Session * list OAuth2.Posted * outcome AccessResult :=
  match providers a !! providerName with
  | None => (session, [], fail ("unknown provider " +:+ providerName))
  | Some providerConfig =>
      if ProviderData.OAuth (ProviderConfig.Provider providerConfig) =? 2 then
        match Session_Get session (state_key providerName) with
        | None => (session, [], fail "state token is not set in session, possible CSRF")
        | Some state =>
            let stateParam := Url.Get (Url.Query (Http.URL r)) "state" in
            match state with
            | VString state =>
                if negb (String.eqb stateParam state) then
                  (session, [], fail "invalid state param provided, possible CSRF")
                else
                  match Session_Get session (scope_key state) with
                  | Some (VString scope) =>
                      let originalScope := Strings.Split scope "," in
                      let code := Url.Get (Url.Query (Http.URL r)) "code" in
                      if is_empty code then
                        (session, [], fail "code was not found in the query parameters")
                      else
                        let '(posted, (token, err)) :=
                          OAuth2.GetAccessToken http_PostForm now providerConfig r in
                        match err with
                        | Some e => (session, posted, Returns (None, "", Some e))
                        | None =>
                            let session := Session_Delete session (state_key providerName) in
                            let session := Session_Delete session (scope_key state) in
                            let redirectUrl :=
                              if negb (is_empty (ProviderConfig.Callback providerConfig))
                              then ProviderConfig.Callback providerConfig
                              else Callback (config a) in
                            let token :=
                              if (length (OAuth2.Scope token) =? 0)%nat
                              then OAuth2.mkToken (OAuth2.AccessToken token) originalScope
                                     (OAuth2.Type_ token) (OAuth2.Expires token)
                                     (OAuth2.RefreshToken token)
                              else token in
                            (session, posted,
                             Returns (Some (tokenFromOAuth2 a providerName token),
                                      redirectUrl, None))
                        end
                  | _ => (session, [], Panics "interface conversion: interface {} is not string")
                  end
            | _ => (session, [], Panics "interface conversion: interface {} is not string")
            end
        end
      else (session, [], fail "Not Implemented")
  end.

End Engine.

End Authy.

(** ** Go's reference objects: header maps and string slices on a heap *)

Module Mem.

(** A slice value: its backing array, where it starts in it, its length. *)
Record slice := mkSlice { arr : nat; off : nat; len : nat }.

(** The map objects and the backing arrays allocated so far, each at its
    index; allocation appends. *)
Record heap := mkHeap {
  maps : list (gmap string slice);
  arrays : list (list string);
}.

Definition array_at (h : heap) (a : nat) : list string := default [] (arrays h !! a).

Definition map_at (h : heap) (m : nat) : gmap string slice := default ∅ (maps h !! m).

(** The elements of a slice. *)
Definition elems (h : heap) (s : slice) : list string :=
  take (len s) (drop (off s) (array_at h (arr s))).

(** [make([]string, n)]. *)
Definition make_slice (h : heap) (n : nat) : heap * slice :=
  (mkHeap (maps h) (arrays h ++ [replicate n ""])%list,
   mkSlice (length (arrays h)) 0 n).

(** The composite literal [[]string{...}]. *)
Definition slice_of (h : heap) (l : list string) : heap * slice :=
  (mkHeap (maps h) (arrays h ++ [l])%list,
   mkSlice (length (arrays h)) 0 (length l)).

(** [copy(dst, src)]. *)
Definition copy (h : heap) (dst src : slice) : heap :=
  let data := take (Nat.min (len dst) (len src)) (elems h src) in
  let a := array_at h (arr dst) in
  mkHeap (maps h)
         (<[arr dst := (take (off dst) a ++ data
                        ++ drop (off dst + length data) a)%list]> (arrays h)).

(** [make(http.Header)]. *)
Definition make_map (h : heap) : heap * nat :=
  (mkHeap (maps h ++ [∅])%list (arrays h), length (maps h)).

(** [m[key] = v] on the map object [m]. *)
Definition map_set (h : heap) (m : nat) (key : string) (v : slice) : heap :=
  mkHeap (<[m := <[key := v]> (map_at h m)]> (maps h)) (arrays h).

End Mem.

(** ** The authenticated transport (token.go) *)

Module Transport.

(** An [http.Request] object as [RoundTrip] sees it: [Header] is nil or a
    reference to a map object. *)
Record Request := mkRequest {
  Method : string;
  URL : Url.URL;
  Host : string;
  Header : option nat;
}.

Record TokenTransport := mkTokenTransport {
  token : Authy.Token;
}.

(** One turn of the loop that copies the headers into the map [m]. *)
Definition copy_header (m : nat) (h : Mem.heap) (entry : string * Mem.slice) : Mem.heap :=
  let '(name, val) := entry in
  let '(h, valCopy) := Mem.make_slice h (Mem.len val) in
  let h := Mem.copy h valCopy val in
  Mem.map_set h m name valCopy.

Definition copy_headers (m : nat) (h : Mem.heap) (req : Request) : Mem.heap :=
  match Header req with
  | None => h
  | Some src => fold_left (copy_header m) (map_to_list (Mem.map_at h src)) h
  end.

(** [RoundTrip] up to its last call: the heap and the request [newReq] that
    it hands to the wrapped transport, whose answer it returns. *)
Definition RoundTrip (now : Time.Time) (tt : TokenTransport) (h : Mem.heap) (req : Request)
  : outcome (Mem.heap * Request) :=
  let newReq := req in
  let '(h, m) := Mem.make_map h in
  let newReq := mkRequest (Method newReq) (URL newReq) (Host newReq) (Some m) in
  let h := copy_headers m h req in
  if negb (Authy.Expired now (token tt)) then
    let '(h, bearer) := Mem.slice_of h ["Bearer " +:+ Authy.Value (token tt)] in
    Returns (Mem.map_set h m "Authorization" bearer, newReq)
  else Returns (h, newReq).

(** What a request's header map holds under [name], read through the heap. *)
Definition header (h : Mem.heap) (req : Request) (name : string) : option (list string) :=
  match Header req with
  | None => None
  | Some m => Mem.elems h <$> (Mem.map_at h m !! name)
  end.

(** A slice that lies within its backing array. *)
Definition valid_slice (h : Mem.heap) (s : Mem.slice) : bool :=
  (Mem.arr s <? length (Mem.arrays h))%nat
  && (Mem.off s + Mem.len s <=? length (Mem.array_at h (Mem.arr s)))%nat.

(** A request whose header reference and header slices are allocated. *)
Definition valid_request (h : Mem.heap) (req : Transport.Request) : bool :=
  match Transport.Header req with
  | None => true
  | Some src =>
      (src <? length (Mem.maps h))%nat
      && forallb (fun entry => valid_slice h (snd entry)) (map_to_list (Mem.map_at h src))
  end.

End Transport.

(** ** The earlier [authy] source (src/unnamed/part_001) *)

Module Legacy.

Record Token := mkToken {
  Provider : string;
  Value : string;
  Scope : list string;
  Expires : option Time.Time;
}.

Definition zero_Token : Token := mkToken "" "" [] None.

Definition Expired (now : Time.Time) (t : Token) : bool :=
  match Expires t with
  | None => false
  | Some expires => Time.After now expires
  end.

Record TokenTransport := mkTokenTransport {
  token : Token;
}.

(** [RoundTrip] as this file has it: the header is set through [req]. *)
Definition RoundTrip (now : Time.Time) (tt : TokenTransport) (h : Mem.heap)
    (req : Transport.Request) : outcome (Mem.heap * Transport.Request) :=
  let newReq := req in
  let '(h, m) := Mem.make_map h in
  let newReq := Transport.mkRequest (Transport.Method newReq) (Transport.URL newReq)
                                    (Transport.Host newReq) (Some m) in
  let h := Transport.copy_headers m h req in
  if negb (Expired now (token tt)) then
    match Transport.Header req with
    | None => Panics "assignment to entry in nil map"
    | Some orig =>
        let '(h, bearer) := Mem.slice_of h ["Bearer " +:+ Value (token tt)] in
        Returns (Mem.map_set h orig "Authorization" bearer, newReq)
    end
  else Returns (h, newReq).

Section Engine.

Variable http_PostForm : string -> Url.Values -> string + OAuth2.error.
Variable now : Time.Time.

Definition AccessResult : Type := Token * string * option OAuth2.error.

Definition fail (msg : string) : outcome AccessResult :=
  Returns (zero_Token, "", Some (OAuth2.errors_New msg)).

Definition Access (a : Authy.Authy) (providerName : string) (session : Authy.Session)
    (r : Http.Request) : Authy.Session * list OAuth2.Posted * outcome AccessResult :=
  match Authy.providers a !! providerName with
  | None => (session, [], fail ("unknown provider " +:+ providerName))
  | Some providerConfig =>
      if ProviderData.OAuth (ProviderConfig.Provider providerConfig) =? 2 then
        match Authy.Session_Get session (Authy.state_key providerName) with
        | None => (session, [], fail "state token is not set in session, possible CSRF")
        | Some state =>
            let stateParam := Url.Get (Url.Query (Http.URL r)) "state" in
            match state with
            | Authy.VString state =>
                if negb (String.eqb stateParam state) then
                  (session, [], fail "invalid state param provided, possible CSRF")
                else
                  match Authy.Session_Get session (Authy.scope_key state) with
                  | Some (Authy.VString scope) =>
                      let originalScope := Strings.Split scope "," in
                      let code := Url.Get (Url.Query (Http.URL r)) "code" in
                      if is_empty code then
                        (session, [], fail "code was not found in the query parameters")
                      else
                        let '(posted, (token, err)) :=
                          OAuth2.GetAccessToken http_PostForm now providerConfig r in
                        match err with
                        | Some e => (session, posted, Returns (zero_Token, "", Some e))
                        | None =>
                            let session :=
                              Authy.Session_Delete session (Authy.state_key providerName) in
                            let session :=
                              Authy.Session_Delete session (Authy.scope_key state) in
                            let redirectUrl :=
                              if negb (is_empty (ProviderConfig.Callback providerConfig))
                              then ProviderConfig.Callback providerConfig
                              else Authy.Callback (Authy.config a) in
                            let scope :=
                              if (length (OAuth2.Scope token) =? 0)%nat
                              then originalScope else OAuth2.Scope token in
                            (session, posted,
                             Returns (mkToken "" (OAuth2.AccessToken token) scope None,
                                      redirectUrl, None))
                        end
                  | _ => (session, [], Panics "interface conversion: interface {} is not string")
                  end
            | _ => (session, [], Panics "interface conversion: interface {} is not string")
            end
        end
      else (session, [], fail "Not Implemented")
  end.

End Engine.

End Legacy.

(** ** Predicates on byte strings used to state properties *)

Fixpoint all_bytes (p : ascii -> bool) (s : string) : bool :=
  match s with
  | EmptyString => true
  | String c s' => p c && all_bytes p s'
  end.

Definition lower_hex (c : ascii) : bool :=
  byte_between "0" "9" c || byte_between "a" "f" c.

(** The bytes [QueryEscape] can produce: unreserved ones, the percent sign
    of an escape and the plus that stands for a space. *)
Definition query_safe (c : ascii) : bool :=
  byte_between "a" "z" c || byte_between "A" "Z" c || byte_between "0" "9" c
  || Url.byte_in c "-_.~%+".

(** ** The Martini middleware (martini/martini.go) *)

Module Martini.

(** [LoginRequired]: the URL it hands to [http.Redirect], or [None] when
    the session holds a token and it does nothing.  [PathLogin] is the
    field of the configuration it reads. *)
Definition LoginRequired (PathLogin : string) (s : Authy.Session) (r : Http.Request)
  : option string :=
  match Authy.Session_Get s "authy.token" with
  | None =>
      let next := Url.QueryEscape (Url.RequestURI (Http.URL r)) in
      Some (PathLogin +:+ "?next=" +:+ next)
  | Some _ => None
  end.

End Martini.

(** ** Concrete inputs used below *)

Module Ex.

Definition github : ProviderData.t :=
  ProviderData.mk "github" "https://github.com/login/oauth/authorize"
                  "https://github.com/login/oauth/access_token" 2 " " false [].

Definition github_k1 : ProviderConfig.t :=
  ProviderConfig.mk github "k1" "s1" ["repo"; "user:email"] "" "" "" ∅.

Definition github_noscope : ProviderConfig.t :=
  ProviderConfig.mk github "k1" "s1" [] "" "" "" ∅.

(** What [url.Parse] returns on the one URL these examples parse. *)
Definition url_Parse (s : string) : Url.URL + OAuth2.error :=
  if String.eqb s "https://github.com/login/oauth/authorize"
  then inl (Url.mkURL "https" "github.com" "/login/oauth/authorize" "")
  else inr (OAuth2.lib_error "parse").

Definition login_request : Http.Request :=
  Http.mkRequest "example.com" (Url.mkURL "" "" "/authy/github" "") ∅ false.

Definition callback_request (state : string) : Http.Request :=
  Http.mkRequest "example.com"
    (Url.mkURL "" "" "/authy/github" ("code=c0de&state=" +:+ state)) ∅ false.

(** The provider's redirect back, as the middleware routes it: the login
    path followed by /callback. *)
Definition returning_request : Http.Request :=
  Http.mkRequest "example.com" (Url.mkURL "" "" "/authy/github/callback" "code=c0de") ∅ false.

(** A provider that supports two custom parameters, and a caller that
    supplies one of them and one the provider does not support. *)
Definition github_custom : ProviderConfig.t :=
  ProviderConfig.mk
    (ProviderData.mk "github" "https://github.com/login/oauth/authorize"
                     "https://github.com/login/oauth/access_token" 2 " " false
                     ["access_type"; "login"])
    "k1" "s1" ["repo"] "" "" ""
    (<["prompt" := "consent"]> (<["access_type" := "offline"]> ∅)).

(** A provider that needs a subdomain, configured without one. *)
Definition zendesk : ProviderConfig.t :=
  ProviderConfig.mk
    (ProviderData.mk "zendesk" "https://[subdomain].zendesk.com/oauth/authorizations/new"
                     "https://[subdomain].zendesk.com/oauth/tokens" 2 " " true [])
    "k1" "s1" ["read"] "" "" "" ∅.

Definition zendesk_engine : Authy.Authy :=
  Authy.mkAuthy (Authy.mkConfig "/generic_callback" {["zendesk" := zendesk]})
                {["zendesk" := zendesk]}.

(** A provider that answers every post with the same body. *)
Definition provider_says (body : string) : string -> Url.Values -> string + OAuth2.error :=
  fun _ _ => inl body.

Definition engine (c : ProviderConfig.t) : Authy.Authy :=
  Authy.mkAuthy (Authy.mkConfig "/generic_callback" {["github" := c]}) {["github" := c]}.

Definition session_with (state scope : string) : Authy.Session :=
  <[Authy.scope_key state := Authy.VString scope]>
    (<[Authy.state_key "github" := Authy.VString state]> ∅).

Definition token (version : Z) (expires : option Time.Time) (refresh : string) : Authy.Token :=
  Authy.mkToken (engine github_k1) version "github" "abc" ["repo"] "bearer" expires refresh.

Definition response_3600 : Url.Values :=
  fst (Url.ParseQuery "access_token=abc&token_type=bearer&expires_in=3600").

Definition response_soon : Url.Values :=
  fst (Url.ParseQuery "access_token=abc&token_type=bearer&expires_in=soon").

Definition bearer_reply : string -> Url.Values -> string + OAuth2.error :=
  provider_says "access_token=abc&token_type=bearer&expires_in=3600".

Definition noscope_reply : string -> Url.Values -> string + OAuth2.error :=
  provider_says "access_token=abc&token_type=bearer".

(** The state [NewState] makes of the sixteen bytes 0123456789abcdef. *)
Definition state0 : string := "30313233343536373839616263646566".

(** The token the exchange above yields for [github_k1]: the response has
    no scope, so the requested one is filled in; no expiry (see
    [parseTokenResponse]). *)
Definition exchanged_token : Authy.Token :=
  Authy.mkToken (engine github_k1) 2 "github" "abc" ["repo"; "user:email"] "bearer" None "".

Definition backfilled_token : Authy.Token :=
  Authy.mkToken (engine github_noscope) 2 "github" "abc" [""] "bearer" None "".

(** A heap with one header map, holding Accept: text/html. *)
Definition heap0 : Mem.heap :=
  Mem.mkHeap [{["Accept" := Mem.mkSlice 0 0 1]}] [["text/html"]].

Definition request0 : Transport.Request :=
  Transport.mkRequest "GET" (Url.mkURL "https" "api.github.com" "/user" "")
                      "api.github.com" (Some 0%nat).

Definition request_nil : Transport.Request :=
  Transport.mkRequest "GET" (Url.mkURL "https" "api.github.com" "/user" "")
                      "api.github.com" None.

Definition legacy_token : Legacy.Token := Legacy.mkToken "github" "abc" ["repo"] None.

End Ex.

(** * Properties *)

Example ParseInt10_3600 : Strconv.ParseInt10 "3600" 32 = (3600, None).
Proof. reflexivity. Qed.

Example ParseInt10_soon : Strconv.ParseInt10 "soon" 32 = (0, Some Strconv.ErrSyntax).
Proof. reflexivity. Qed.

Example ParseInt10_big :
  Strconv.ParseInt10 "99999999999x" 32 = (2147483647, Some Strconv.ErrRange).
Proof. reflexivity. Qed.

Example Split_empty : Strings.Split "" "," = [""].
Proof. reflexivity. Qed.

Example Split_ab : Strings.Split "a,b,,c" "," = ["a"; "b"; ""; "c"].
Proof. reflexivity. Qed.

Example Split_explode : Strings.Split "ab" "" = ["a"; "b"].
Proof. reflexivity. Qed.

Example QueryEscape_scope : Url.QueryEscape "repo user:email" = "repo+user%3Aemail".
Proof. reflexivity. Qed.

Example Encode_sorted :
  Url.Encode (Url.Add (Url.Add (Url.Add ∅ "client_id" "k1") "response_type" "code")
                      "redirect_uri" "http://h/p")
  = "client_id=k1&redirect_uri=http%3A%2F%2Fh%2Fp&response_type=code".
Proof. vm_compute. reflexivity. Qed.

Example ParseQuery_token :
  Url.Get (fst (Url.ParseQuery "access_token=abc&token_type=bearer&expires_in=3600"))
          "expires_in" = "3600".
Proof. vm_compute. reflexivity. Qed.

Example String_callback :
  Url.String_ (Url.mkURL "https" "example.com" "/authy/github/callback" "")
  = "https://example.com/authy/github/callback".
Proof. vm_compute. reflexivity. Qed.

(** ** Strings and session keys *)

Lemma append_length_eq (a b : string) :
  String.length (a +:+ b) = (String.length a + String.length b)%nat.
Proof. induction a as [|c a IH]; simpl; [reflexivity | now rewrite IH]. Qed.

Lemma append_suffix_differs (p s : string) : p +:+ ".state" <> s +:+ ".scope".
Proof.
  revert s. induction p as [|c p IH]; intros [|d s] H; simpl in H.
  - discriminate.
  - injection H as _ H. apply (f_equal String.length) in H.
    rewrite append_length_eq in H. simpl in H. lia.
  - injection H as _ H. apply (f_equal String.length) in H.
    rewrite append_length_eq in H. simpl in H. lia.
  - injection H as _ H. exact (IH _ H).
Qed.

(** A provider's state key is never some state's scope key. *)
Lemma state_key_scope_key (providerName state : string) :
  Authy.state_key providerName <> Authy.scope_key state.
Proof.
  unfold Authy.state_key, Authy.scope_key. simpl. intros H.
  repeat (injection H as H). exact (append_suffix_differs _ _ H).
Qed.

Lemma eqb_false_of_neq (a b : string) : a <> b -> String.eqb a b = false.
Proof. intros H. now apply String.eqb_neq. Qed.

(** ** The token-response parser *)

(** The expiry of the parsed token, for every response that has the two
    required fields and an [expires_in]: set exactly when [ParseInt]
    reports an error. *)
Lemma parseTokenResponse_expiry (now : Time.Time) (config : ProviderConfig.t)
    (values : Url.Values) :
  is_empty (Url.Get values "access_token") = false ->
  is_empty (Url.Get values "token_type") = false ->
  is_empty (Url.Get values "expires_in") = false ->
  OAuth2.Expires (fst (OAuth2.parseTokenResponse now config values))
  = match Strconv.ParseInt10 (Url.Get values "expires_in") 32 with
    | (_, None) => None
    | (n, Some _) => Some (Time.Add now (Time.mul n Time.Second))
    end.
Proof.
  intros Ha Ht He. unfold OAuth2.parseTokenResponse. simpl.
  rewrite Ha, Ht, He. simpl.
  destruct (Strconv.ParseInt10 _ 32) as [n [e|]];
    destruct (is_empty (Url.Get values "scope")); reflexivity.
Qed.

(** C1, as the code has it: the test on the parse error is inverted.  For
    the response [expires_in=3600], which parses, the token's expiry stays
    unset; for [expires_in=soon], which does not parse, the expiry is set,
    to [now] plus the zero seconds [ParseInt] returned with its error. *)
Theorem parseTokenResponse_expires_in_inverted (now : Time.Time) (config : ProviderConfig.t) :
  OAuth2.parseTokenResponse now config Ex.response_3600
    = (OAuth2.mkToken "abc" [] "bearer" None "", None)
  /\ OAuth2.parseTokenResponse now config Ex.response_soon
    = (OAuth2.mkToken "abc" [] "bearer" (Some now) "", None).
Proof.
  split.
  - vm_compute. reflexivity.
  - destruct now; vm_compute; reflexivity.
Qed.

(** ** The refresh request *)

(** C2, as the code has it: whatever token is being refreshed, the form
    [Refresh] posts to the provider's access-token URL carries
    [grant_type=refresh_token] and an empty [refresh_token]: the request is
    built from the zero-valued named result, not from [originalToken]. *)
Theorem Refresh_posts_empty_refresh_token
    (http_PostForm : string -> Url.Values -> string + OAuth2.error)
    (now : Time.Time) (config : ProviderConfig.t) (originalToken : OAuth2.Token) :
  exists form,
    fst (OAuth2.Refresh http_PostForm now config originalToken)
      = [(ProviderData.AccessURL (ProviderConfig.Provider config), form)]
    /\ form !! "grant_type" = Some ["refresh_token"]
    /\ form !! "refresh_token" = Some [""].
Proof.
  eexists. split; [reflexivity|]. split; vm_compute; reflexivity.
Qed.

(** The same through the token's own [Refresh]: the form posted for a
    refreshable token never carries that token's refresh token. *)
Lemma Token_Refresh_posts_empty_refresh_token
    (http_PostForm : string -> Url.Values -> string + OAuth2.error)
    (now : Time.Time) (t : Authy.Token) (providerConfig : ProviderConfig.t) :
  Authy.IsRefreshable t = true ->
  Authy.providers (Authy.authy t) !! Authy.Provider t = Some providerConfig ->
  exists form,
    snd (fst (Authy.Refresh http_PostForm now t))
      = [(ProviderData.AccessURL (ProviderConfig.Provider providerConfig), form)]
    /\ Url.Get form "refresh_token" = ""
    /\ Url.Get form "refresh_token" <> Authy.RefreshToken t.
Proof.
  intros Hr Hp. unfold Authy.Refresh. rewrite Hr, Hp.
  unfold Authy.IsRefreshable in Hr. apply andb_prop in Hr as [Hv Hne]. rewrite Hv.
  unfold OAuth2.Refresh.
  destruct (OAuth2.read_token _ _ _) as [newToken [e|]]; cbn [negb fst snd];
    (eexists; split; [reflexivity|]; split; [vm_compute; reflexivity|]);
    (replace (Url.Get _ "refresh_token") with "" by (vm_compute; reflexivity));
    intros Heq; rewrite <- Heq in Hne; discriminate.
Qed.

(** ** Refreshing a token that cannot be refreshed *)

(** C5: on a token that is not refreshable, [Refresh] fails with the error
    "Token cannot be refreshed", posts nothing, and leaves the token as it
    was, field for field. *)
Theorem Refresh_not_refreshable
    (http_PostForm : string -> Url.Values -> string + OAuth2.error)
    (now : Time.Time) (t : Authy.Token) :
  Authy.IsRefreshable t = false ->
  Authy.Refresh http_PostForm now t
    = (t, [], Some (OAuth2.errors_New "Token cannot be refreshed")).
Proof. intros H. unfold Authy.Refresh. now rewrite H. Qed.

Lemma Refresh_not_refreshable_witness :
  Authy.Refresh (Ex.provider_says "access_token=new&token_type=bearer") 1000
                (Ex.token 2 None "")
    = (Ex.token 2 None "", [], Some (OAuth2.errors_New "Token cannot be refreshed")).
Proof.
  apply (Refresh_not_refreshable
           (Ex.provider_says "access_token=new&token_type=bearer") 1000
           (Ex.token 2 None "")).
  reflexivity.
Defined.

(** ** Expiry *)

(** C7, the boundary as the specification states it fails: a token whose expiry is the current
    instant is not expired (in token.go and in the earlier source alike). *)
Lemma Expired_at_expiry_is_false :
  Authy.Expired 1000 (Ex.token 2 (Some 1000) "") = false
  /\ Legacy.Expired 1000 (Legacy.mkToken "github" "abc" [] (Some 1000)) = false.
Proof. split; reflexivity. Qed.

(** C7, amended: [Expired] is true exactly when the expiry is set and
    strictly before the clock reading; a token with no expiry is never
    expired; a token whose expiry equals the clock reading is not expired. *)
Theorem Expired_iff_strictly_past (now : Time.Time) (t : Authy.Token) :
  (Authy.Expired now t = true <-> exists expires, Authy.Expires t = Some expires /\ expires < now)
  /\ (Authy.Expires t = None -> Authy.Expired now t = false)
  /\ (Authy.Expires t = Some now -> Authy.Expired now t = false).
Proof.
  unfold Authy.Expired, Time.After. repeat split.
  - destruct (Authy.Expires t) as [e|]; [|discriminate].
    intros H. exists e. split; [reflexivity | lia].
  - intros (e & -> & H). lia.
  - now intros ->.
  - intros ->. lia.
Qed.

(** ** The session orchestrator *)

Section AccessProperties.

Variable http_PostForm : string -> Url.Values -> string + OAuth2.error.
Variable now : Time.Time.

(** C3: for a registered OAuth2 provider with the state [S] stored in the
    session under its state key, [Access] on a request whose [state]
    parameter differs from [S] returns the CSRF-mismatch error, posts
    nothing, and returns the session unchanged: no entry is deleted. *)
Theorem Access_state_mismatch (a : Authy.Authy) (providerName : string)
    (providerConfig : ProviderConfig.t) (session : Authy.Session)
    (r : Http.Request) (S : string) :
  Authy.providers a !! providerName = Some providerConfig ->
  ProviderData.OAuth (ProviderConfig.Provider providerConfig) = 2 ->
  session !! Authy.state_key providerName = Some (Authy.VString S) ->
  Url.Get (Url.Query (Http.URL r)) "state" <> S ->
  Authy.Access http_PostForm now a providerName session r
  = (session, [],
     Returns (None, "",
              Some (OAuth2.errors_New "invalid state param provided, possible CSRF"))).
Proof.
  intros Hp Hv Hs Hne. unfold Authy.Access, Authy.Session_Get.
  rewrite Hp, Hv, Hs. cbn [Z.eqb Pos.eqb].
  now rewrite (eqb_false_of_neq _ _ Hne).
Qed.

(** C4: a successful [Access] returns the session with the provider's state
    entry and that state's scope entry both deleted, whatever the scope of
    the exchanged token; and any later [Access] for the provider on that
    session, the replay included, fails with the missing-state error. *)
Theorem Access_success_consumes_state (a : Authy.Authy) (providerName : string)
    (session session' : Authy.Session) (r : Http.Request)
    (posted : list OAuth2.Posted) (tok : Authy.Token) (redirect : string) :
  Authy.Access http_PostForm now a providerName session r
    = (session', posted, Returns (Some tok, redirect, None)) ->
  (exists S,
      session !! Authy.state_key providerName = Some (Authy.VString S)
      /\ session' = Authy.Session_Delete
                      (Authy.Session_Delete session (Authy.state_key providerName))
                      (Authy.scope_key S)
      /\ session' !! Authy.scope_key S = None)
  /\ session' !! Authy.state_key providerName = None
  /\ (forall post' now' r',
        Authy.Access post' now' a providerName session' r'
        = (session', [],
           Returns (None, "",
                    Some (OAuth2.errors_New
                            "state token is not set in session, possible CSRF")))).
Proof.
  unfold Authy.Access at 1, Authy.Session_Get, Authy.fail.
  destruct (Authy.providers a !! providerName) as [pc|] eqn:Hp; [|discriminate].
  destruct (ProviderData.OAuth (ProviderConfig.Provider pc) =? 2) eqn:Hv; [|discriminate].
  destruct (session !! Authy.state_key providerName) as [[S| |]|] eqn:Hs; try discriminate.
  destruct (negb _); [discriminate|].
  destruct (session !! Authy.scope_key S) as [[scope| |]|]; try discriminate.
  destruct (is_empty _); [discriminate|].
  destruct (OAuth2.GetAccessToken _ _ _ _) as [posted0 [token [e|]]]; [discriminate|].
  intros H. injection H as Hsess _ _ _.
  assert (Hgone : session' !! Authy.state_key providerName = None).
  { subst session'. unfold Authy.Session_Delete.
    rewrite lookup_delete_ne by (apply not_eq_sym, state_key_scope_key).
    apply lookup_delete_eq. }
  split; [|split].
  - exists S. split; [reflexivity|]. split; [now symmetry|].
    subst session'. apply lookup_delete_eq.
  - exact Hgone.
  - intros post' now' r'. unfold Authy.Access, Authy.Session_Get.
    now rewrite Hp, Hv, Hgone.
Qed.

(** C9: when the state entry exists and matches the request's [state]
    parameter but the scope entry is absent or holds no string, [Access]
    panics on the type assertion instead of returning an error (in authy.go
    and in the earlier source alike). *)
Theorem Access_scope_entry_panics (a : Authy.Authy) (providerName : string)
    (providerConfig : ProviderConfig.t) (session : Authy.Session)
    (r : Http.Request) (S : string) :
  Authy.providers a !! providerName = Some providerConfig ->
  ProviderData.OAuth (ProviderConfig.Provider providerConfig) = 2 ->
  session !! Authy.state_key providerName = Some (Authy.VString S) ->
  Url.Get (Url.Query (Http.URL r)) "state" = S ->
  (forall scope, session !! Authy.scope_key S <> Some (Authy.VString scope)) ->
  Authy.Access http_PostForm now a providerName session r
    = (session, [], Panics "interface conversion: interface {} is not string")
  /\ Legacy.Access http_PostForm now a providerName session r
    = (session, [], Panics "interface conversion: interface {} is not string").
Proof.
  intros Hp Hv Hs Heq Hscope.
  unfold Authy.Access, Legacy.Access, Authy.Session_Get.
  rewrite Hp, Hv, Hs, Heq, String.eqb_refl. cbn [Z.eqb Pos.eqb negb].
  destruct (session !! Authy.scope_key S) as [[scope| |]|] eqn:E;
    try (split; reflexivity).
  now destruct (Hscope scope).
Qed.

(** C10: [Authorize] stores the requested scopes joined with a comma under
    the scope key; when the provider's response carries no scope, the token
    [Access] returns has the stored string split on the comma as its scope;
    for an empty requested list that is the one-element list holding the
    empty string. *)
Theorem Access_backfills_split_of_join
    (url_Parse : string -> Url.URL + OAuth2.error)
    (a : Authy.Authy) (rand_Read : string + OAuth2.error) (providerName : string)
    (providerConfig : ProviderConfig.t) (session session1 session2 : Authy.Session)
    (r r' : Http.Request) (authorizeUrl redirect : string)
    (posted : list OAuth2.Posted) (tok : Authy.Token) :
  Authy.providers a !! providerName = Some providerConfig ->
  Authy.Authorize url_Parse a rand_Read providerName session r
    = (session1, (authorizeUrl, None)) ->
  Authy.Access http_PostForm now a providerName session1 r'
    = (session2, posted, Returns (Some tok, redirect, None)) ->
  OAuth2.Scope (fst (snd (OAuth2.GetAccessToken http_PostForm now providerConfig r'))) = [] ->
  exists state,
    session1 !! Authy.state_key providerName = Some (Authy.VString state)
    /\ session1 !! Authy.scope_key state
       = Some (Authy.VString (Strings.Join (ProviderConfig.Scope providerConfig) ","))
    /\ Authy.Scope tok
       = Strings.Split (Strings.Join (ProviderConfig.Scope providerConfig) ",") ","
    /\ (ProviderConfig.Scope providerConfig = [] -> Authy.Scope tok = [""]).
Proof.
  intros Hp Hauth Hacc Hnoscope.
  unfold Authy.Authorize in Hauth. rewrite Hp in Hauth.
  destruct (ProviderData.OAuth (ProviderConfig.Provider providerConfig) =? 2) eqn:Hv;
    [|discriminate].
  destruct (OAuth2.NewState rand_Read) as [state [e|]]; [discriminate|].
  destruct (OAuth2.AuthorizeURL _ _ _) as [u [e|]]; [discriminate|].
  injection Hauth as Hs1 _. unfold Authy.Session_Set in Hs1.
  assert (Hstate : session1 !! Authy.state_key providerName = Some (Authy.VString state)).
  { subst session1. rewrite lookup_insert_ne by (apply not_eq_sym, state_key_scope_key).
    apply lookup_insert_eq. }
  assert (Hscope : session1 !! Authy.scope_key state
                   = Some (Authy.VString (Strings.Join (ProviderConfig.Scope providerConfig) ","))).
  { subst session1. apply lookup_insert_eq. }
  unfold Authy.Access, Authy.Session_Get, Authy.fail in Hacc.
  rewrite Hp, Hv, Hstate in Hacc.
  destruct (negb _); [discriminate|]. rewrite Hscope in Hacc.
  destruct (is_empty _); [discriminate|].
  destruct (OAuth2.GetAccessToken _ _ _ _) as [posted0 [token [e|]]]; [discriminate|].
  simpl in Hnoscope. rewrite Hnoscope in Hacc. cbn [length Nat.eqb] in Hacc.
  injection Hacc as _ _ Htok _.
  exists state. split; [exact Hstate|]. split; [exact Hscope|].
  assert (Hsc : Authy.Scope tok
                = Strings.Split (Strings.Join (ProviderConfig.Scope providerConfig) ",") ",").
  { now subst tok. }
  split; [exact Hsc|]. intros Hempty. rewrite Hsc, Hempty. reflexivity.
Qed.

End AccessProperties.

Lemma Access_state_mismatch_witness :
  Authy.Access Ex.bearer_reply 1000 (Ex.engine Ex.github_k1) "github"
               (Ex.session_with "s3cr3t" "repo,user:email") (Ex.callback_request "forged")
  = (Ex.session_with "s3cr3t" "repo,user:email", [],
     Returns (None, "",
              Some (OAuth2.errors_New "invalid state param provided, possible CSRF"))).
Proof.
  apply (Access_state_mismatch Ex.bearer_reply 1000 (Ex.engine Ex.github_k1) "github"
           Ex.github_k1 (Ex.session_with "s3cr3t" "repo,user:email")
           (Ex.callback_request "forged") "s3cr3t").
  - vm_compute. reflexivity.
  - reflexivity.
  - vm_compute. reflexivity.
  - vm_compute. discriminate.
Defined.

Lemma Access_success_consumes_state_witness :
  Authy.Access Ex.bearer_reply 1000 (Ex.engine Ex.github_k1) "github"
               (Ex.session_with "s3cr3t" "repo,user:email") (Ex.callback_request "s3cr3t")
  = (∅, fst (OAuth2.GetAccessToken Ex.bearer_reply 1000 Ex.github_k1
               (Ex.callback_request "s3cr3t")),
     Returns (Some Ex.exchanged_token, "/generic_callback", None))
  /\ Authy.Access Ex.bearer_reply 1000 (Ex.engine Ex.github_k1) "github" ∅
                  (Ex.callback_request "s3cr3t")
  = (∅, [],
     Returns (None, "",
              Some (OAuth2.errors_New "state token is not set in session, possible CSRF"))).
Proof.
  assert (H : Authy.Access Ex.bearer_reply 1000 (Ex.engine Ex.github_k1) "github"
                (Ex.session_with "s3cr3t" "repo,user:email") (Ex.callback_request "s3cr3t")
              = (∅, fst (OAuth2.GetAccessToken Ex.bearer_reply 1000 Ex.github_k1
                           (Ex.callback_request "s3cr3t")),
                 Returns (Some Ex.exchanged_token, "/generic_callback", None))).
  { vm_compute. reflexivity. }
  split; [exact H|].
  exact (proj2 (proj2
    (Access_success_consumes_state Ex.bearer_reply 1000 (Ex.engine Ex.github_k1) "github"
       (Ex.session_with "s3cr3t" "repo,user:email") ∅ (Ex.callback_request "s3cr3t")
       _ Ex.exchanged_token "/generic_callback" H))
    Ex.bearer_reply 1000 (Ex.callback_request "s3cr3t")).
Defined.

Lemma Access_scope_entry_panics_witness :
  Authy.Access Ex.bearer_reply 1000 (Ex.engine Ex.github_k1) "github"
     (<[Authy.state_key "github" := Authy.VString "s3cr3t"]> ∅) (Ex.callback_request "s3cr3t")
    = (<[Authy.state_key "github" := Authy.VString "s3cr3t"]> ∅, [],
       Panics "interface conversion: interface {} is not string")
  /\ Legacy.Access Ex.bearer_reply 1000 (Ex.engine Ex.github_k1) "github"
     (<[Authy.state_key "github" := Authy.VString "s3cr3t"]> ∅) (Ex.callback_request "s3cr3t")
    = (<[Authy.state_key "github" := Authy.VString "s3cr3t"]> ∅, [],
       Panics "interface conversion: interface {} is not string").
Proof.
  apply (Access_scope_entry_panics Ex.bearer_reply 1000 (Ex.engine Ex.github_k1) "github"
           Ex.github_k1 _ (Ex.callback_request "s3cr3t") "s3cr3t").
  - vm_compute. reflexivity.
  - reflexivity.
  - vm_compute. reflexivity.
  - vm_compute. reflexivity.
  - intros scope. vm_compute. discriminate.
Defined.

Lemma Access_backfills_split_of_join_witness :
  exists state,
    Ex.session_with Ex.state0 "" !! Authy.state_key "github" = Some (Authy.VString state)
    /\ Ex.session_with Ex.state0 "" !! Authy.scope_key state
       = Some (Authy.VString (Strings.Join (ProviderConfig.Scope Ex.github_noscope) ","))
    /\ Authy.Scope Ex.backfilled_token
       = Strings.Split (Strings.Join (ProviderConfig.Scope Ex.github_noscope) ",") ","
    /\ (ProviderConfig.Scope Ex.github_noscope = [] ->
        Authy.Scope Ex.backfilled_token = [""]).
Proof.
  refine (Access_backfills_split_of_join Ex.noscope_reply 1000 Ex.url_Parse
            (Ex.engine Ex.github_noscope) (inl "0123456789abcdef") "github"
            Ex.github_noscope ∅ (Ex.session_with Ex.state0 "") ∅
            Ex.login_request (Ex.callback_request Ex.state0)
            (fst (OAuth2.AuthorizeURL Ex.url_Parse
                    (ProviderConfig.with_State Ex.github_noscope Ex.state0) Ex.login_request))
            "/generic_callback"
            (fst (OAuth2.GetAccessToken Ex.noscope_reply 1000 Ex.github_noscope
                    (Ex.callback_request Ex.state0)))
            Ex.backfilled_token _ _ _ _).
  - vm_compute. reflexivity.
  - vm_compute. reflexivity.
  - vm_compute. reflexivity.
  - vm_compute. reflexivity.
Defined.

(** ** The authorization URL *)

(** The callback URL starts with its scheme, so [omitempty] never drops it. *)
Lemma genCallbackURL_not_empty (config : ProviderConfig.t) (r : Http.Request) :
  is_empty (OAuth2.genCallbackURL config r) = false.
Proof.
  unfold OAuth2.genCallbackURL, Url.String_.
  destruct (Http.TLS r || _); reflexivity.
Qed.

Lemma append_assoc (a b c : string) : (a +:+ b) +:+ c = a +:+ (b +:+ c).
Proof. induction a as [|x a IH]; [reflexivity | exact (f_equal (String x) IH)]. Qed.

(** [Encode] on the four keys of an authorization request without state. *)
Lemma Encode_authorization (a b c d : string) :
  Url.Encode (Url.Add (Url.Add (Url.Add (Url.Add ∅ "client_id" a) "response_type" c)
                               "redirect_uri" b) "scope" d)
  = "client_id=" +:+ Url.QueryEscape a
    +:+ "&redirect_uri=" +:+ Url.QueryEscape b
    +:+ "&response_type=" +:+ Url.QueryEscape c
    +:+ "&scope=" +:+ Url.QueryEscape d.
Proof.
  unfold Url.Encode.
  set (m := Url.Add _ "scope" d).
  replace (Url.sorted_keys m)
    with ["client_id"; "redirect_uri"; "response_type"; "scope"]
    by (vm_compute; reflexivity).
  cbn [flat_map].
  replace (m !! "client_id") with (Some [a]) by (vm_compute; reflexivity).
  replace (m !! "redirect_uri") with (Some [b]) by (vm_compute; reflexivity).
  replace (m !! "response_type") with (Some [c]) by (vm_compute; reflexivity).
  replace (m !! "scope") with (Some [d]) by (vm_compute; reflexivity).
  cbn [default map app Strings.Join].
  replace (Url.QueryEscape "client_id") with "client_id" by reflexivity.
  replace (Url.QueryEscape "redirect_uri") with "redirect_uri" by reflexivity.
  replace (Url.QueryEscape "response_type") with "response_type" by reflexivity.
  replace (Url.QueryEscape "scope") with "scope" by reflexivity.
  simpl. rewrite !append_assoc. reflexivity.
Qed.

(** C8, as the specification states it, fails: for github, key k1, scopes repo and user:email,
    delimiter " " and no state, the query of the URL built has
    [redirect_uri] between [client_id] and [response_type], and the space
    of the scope encoded as [+]; the string the specification gives is no
    part of it. *)
Lemma AuthorizeURL_github_lacks_claimed_query :
  OAuth2.AuthorizeURL Ex.url_Parse Ex.github_k1 Ex.login_request
  = ("https://github.com/login/oauth/authorize?client_id=k1&redirect_uri=http%3A%2F%2Fexample.com%2Fauthy%2Fgithub%2Fcallback&response_type=code&scope=repo+user%3Aemail",
     None)
  /\ Strings.Contains
       (Url.Encode (OAuth2.authorize_values Ex.github_k1 Ex.login_request))
       "client_id=k1&response_type=code&scope=repo%20user%3Aemail" = false.
Proof. split; vm_compute; reflexivity. Qed.

(** C8, amended: for github (no subdomain), key k1, scopes repo and
    user:email, delimiter " ", an empty state and no custom parameters, the
    query of the URL built is
    [client_id=k1&redirect_uri=<escaped callback>&response_type=code&scope=repo+user%3Aemail],
    and its values hold no [state] key. *)
Theorem AuthorizeURL_github_query_sorted
    (url_Parse : string -> Url.URL + OAuth2.error)
    (authorizeURL accessURL secret subdomain callback : string) (oauth : Z)
    (customs : list string) (r : Http.Request) :
  let config :=
    ProviderConfig.mk
      (ProviderData.mk "github" authorizeURL accessURL oauth " " false customs)
      "k1" secret ["repo"; "user:email"] "" subdomain callback ∅ in
  let query :=
    "client_id=k1&redirect_uri=" +:+ Url.QueryEscape (OAuth2.genCallbackURL config r)
    +:+ "&response_type=code&scope=repo+user%3Aemail" in
  Url.Encode (OAuth2.authorize_values config r) = query
  /\ OAuth2.authorize_values config r !! "state" = None
  /\ OAuth2.AuthorizeURL url_Parse config r
     = match url_Parse authorizeURL with
       | inl authUrl =>
           (Url.String_ (Url.mkURL (Url.Scheme authUrl) (Url.Host authUrl)
                                   (Url.Path authUrl) query), None)
       | inr err => ("", Some err)
       end.
Proof.
  intros config query.
  assert (Hvalues : OAuth2.authorize_values config r
                    = Url.Add (Url.Add (Url.Add (Url.Add ∅ "client_id" "k1")
                                                "response_type" "code")
                                       "redirect_uri" (OAuth2.genCallbackURL config r))
                              "scope" "repo user:email").
  { unfold OAuth2.authorize_values, OAuth2.query_Values_authorizationRequest,
      OAuth2.add_omitempty.
    cbn [OAuth2.ar_ClientId OAuth2.ar_ResponseType OAuth2.ar_RedirectURI
         OAuth2.ar_Scope OAuth2.ar_State].
    rewrite genCallbackURL_not_empty. reflexivity. }
  assert (Hquery : Url.Encode (OAuth2.authorize_values config r) = query).
  { rewrite Hvalues, Encode_authorization. reflexivity. }
  split; [exact Hquery|]. split.
  - rewrite Hvalues. generalize (OAuth2.genCallbackURL config r). intros cb.
    vm_compute. reflexivity.
  - unfold OAuth2.AuthorizeURL. cbn [ProviderConfig.Provider ProviderData.Subdomain
      ProviderData.AuthorizeURL config andb].
    destruct (url_Parse authorizeURL); [|reflexivity]. now rewrite Hquery.
Qed.

(** ** The transport of the earlier source, on a concrete request *)

(** C6, as the earlier source (part_001) has it: with a token that is not
    expired, [RoundTrip] writes the [Authorization] header into the header
    map of the caller's request, the clone handed on does not carry it, and
    a request whose header map is nil makes the call panic. *)
Theorem Legacy_RoundTrip_writes_original_header :
  exists h' newReq,
    Legacy.RoundTrip 1000 (Legacy.mkTokenTransport Ex.legacy_token) Ex.heap0 Ex.request0
      = Returns (h', newReq)
    /\ Transport.header Ex.heap0 Ex.request0 "Authorization" = None
    /\ Transport.header h' Ex.request0 "Authorization" = Some ["Bearer abc"]
    /\ Transport.header h' newReq "Authorization" = None
    /\ Legacy.RoundTrip 1000 (Legacy.mkTokenTransport Ex.legacy_token) Ex.heap0 Ex.request_nil
       = Panics "assignment to entry in nil map".
Proof.
  eexists. eexists. split; [vm_compute; reflexivity|].
  repeat split; vm_compute; reflexivity.
Qed.

(** ** The transports, in general *)

Section TransportProperties.

Implicit Types (h : Mem.heap) (s val : Mem.slice) (m : nat) (name : string).

Lemma elems_extend h h' s ext :
  Mem.arrays h' = (Mem.arrays h ++ ext)%list ->
  (Mem.arr s < length (Mem.arrays h))%nat ->
  Mem.elems h' s = Mem.elems h s.
Proof.
  intros He Hlt. unfold Mem.elems, Mem.array_at.
  now rewrite He, lookup_app_l.
Qed.

Lemma array_at_extend h h' a ext :
  Mem.arrays h' = (Mem.arrays h ++ ext)%list ->
  (a < length (Mem.arrays h))%nat ->
  Mem.array_at h' a = Mem.array_at h a.
Proof. intros He Hlt. unfold Mem.array_at. now rewrite He, lookup_app_l. Qed.

Lemma valid_slice_spec h s :
  Transport.valid_slice h s = true <->
  (Mem.arr s < length (Mem.arrays h))%nat
  /\ (Mem.off s + Mem.len s <= length (Mem.array_at h (Mem.arr s)))%nat.
Proof.
  unfold Transport.valid_slice. rewrite andb_true_iff, Nat.ltb_lt, Nat.leb_le. tauto.
Qed.

Lemma elems_length h s :
  Transport.valid_slice h s = true -> length (Mem.elems h s) = Mem.len s.
Proof.
  intros [_ Hb]%valid_slice_spec. unfold Mem.elems.
  rewrite length_take, length_drop. lia.
Qed.

Lemma valid_slice_extend h h' s ext :
  Mem.arrays h' = (Mem.arrays h ++ ext)%list ->
  Transport.valid_slice h s = true -> Transport.valid_slice h' s = true.
Proof.
  intros He [Ha Hb]%valid_slice_spec. apply valid_slice_spec.
  rewrite (array_at_extend h h' _ ext He Ha). split; [|exact Hb].
  rewrite He, length_app. lia.
Qed.

(** One turn of the copying loop. *)
Lemma copy_header_step m h name val :
  Transport.valid_slice h val = true ->
  Mem.maps (Transport.copy_header m h (name, val))
    = <[m := <[name := Mem.mkSlice (length (Mem.arrays h)) 0 (Mem.len val)]>
               (Mem.map_at h m)]> (Mem.maps h)
  /\ Mem.arrays (Transport.copy_header m h (name, val))
     = (Mem.arrays h ++ [Mem.elems h val])%list.
Proof.
  intros Hv. pose proof (elems_length h val Hv) as Hlen.
  apply valid_slice_spec in Hv as [Ha Hb].
  unfold Transport.copy_header, Mem.make_slice, Mem.copy, Mem.map_set. cbn.
  split; [reflexivity|].
  set (h1 := Mem.mkHeap _ _).
  assert (He : Mem.elems h1 val = Mem.elems h val).
  { apply (elems_extend h h1 val [replicate (Mem.len val) ""]); [reflexivity | exact Ha]. }
  rewrite He, Nat.min_id.
  rewrite (take_ge (Mem.elems h val)) by lia.
  assert (Hat : Mem.array_at h1 (length (Mem.arrays h)) = replicate (Mem.len val) "").
  { unfold Mem.array_at, h1. cbn. now rewrite list_lookup_middle. }
  rewrite Hat, Hlen.
  rewrite drop_ge by (rewrite length_replicate; lia).
  rewrite app_nil_r.
  rewrite insert_app_r_alt by lia. now rewrite Nat.sub_diag.
Qed.

Lemma map_at_insert_eq h m D :
  (m < length (Mem.maps h))%nat ->
  default ∅ (<[m := D]> (Mem.maps h) !! m) = D.
Proof. intros Hm. now rewrite list_lookup_insert_eq. Qed.

(** The copying loop: the map [m] gains one fresh slice per entry, holding
    the elements of the entry's slice; nothing else changes. *)
Lemma copy_headers_fold m (l : list (string * Mem.slice)) h :
  (m < length (Mem.maps h))%nat ->
  (forall name val, (name, val) ∈ l -> Transport.valid_slice h val = true) ->
  NoDup l.*1 ->
  let h' := fold_left (Transport.copy_header m) l h in
  length (Mem.maps h') = length (Mem.maps h)
  /\ (forall k, k <> m -> Mem.maps h' !! k = Mem.maps h !! k)
  /\ (exists ext, Mem.arrays h' = (Mem.arrays h ++ ext)%list)
  /\ (forall name, name ∉ l.*1 -> Mem.map_at h' m !! name = Mem.map_at h m !! name)
  /\ (forall name val, (name, val) ∈ l ->
        exists s', Mem.map_at h' m !! name = Some s'
                   /\ (length (Mem.arrays h) <= Mem.arr s' < length (Mem.arrays h'))%nat
                   /\ Mem.elems h' s' = Mem.elems h val).
Proof.
  revert h. induction l as [|[name0 val0] l IH]; intros h Hm Hvalid Hnd; cbn [fold_left].
  - split; [reflexivity|]. split; [reflexivity|]. split; [exists []; now rewrite app_nil_r|].
    split; [reflexivity|]. intros name val Hin. inversion Hin.
  - assert (Hv0 : Transport.valid_slice h val0 = true) by (apply (Hvalid name0); left).
    destruct (copy_header_step m h name0 val0 Hv0) as [Hmaps Harrays].
    set (h1 := Transport.copy_header m h (name0, val0)) in *.
    apply NoDup_cons in Hnd as [Hfresh Hnd]. cbn [fmap list_fmap fst] in Hfresh.
    assert (Hm1 : (m < length (Mem.maps h1))%nat) by (rewrite Hmaps, length_insert; exact Hm).
    assert (Hvalid1 : forall name val, (name, val) ∈ l -> Transport.valid_slice h1 val = true).
    { intros name val Hin. apply (valid_slice_extend h h1 val _ Harrays).
      apply (Hvalid name). now right. }
    destruct (IH h1 Hm1 Hvalid1 Hnd) as (Hlen & Hother & [ext Hext] & Hout & Hin).
    assert (Hat1 : Mem.map_at h1 m
                   = <[name0 := Mem.mkSlice (length (Mem.arrays h)) 0 (Mem.len val0)]>
                       (Mem.map_at h m)).
    { unfold Mem.map_at at 1. rewrite Hmaps. now apply map_at_insert_eq. }
    assert (Hlen1 : length (Mem.arrays h1) = S (length (Mem.arrays h))).
    { rewrite Harrays, length_app. cbn. lia. }
    split; [rewrite Hlen, Hmaps; apply length_insert|].
    split.
    { intros k Hk. rewrite (Hother k Hk), Hmaps. now apply list_lookup_insert_ne. }
    split.
    { exists ([Mem.elems h val0] ++ ext)%list. rewrite Hext, Harrays. now rewrite <- app_assoc. }
    split.
    { intros name Hname. cbn [fmap list_fmap fst] in Hname.
      apply not_elem_of_cons in Hname as [Hne Hname].
      rewrite (Hout name Hname), Hat1. now apply lookup_insert_ne. }
    intros name val Hel. apply elem_of_cons in Hel as [Heq | Hel].
    + injection Heq as -> ->.
      exists (Mem.mkSlice (length (Mem.arrays h)) 0 (Mem.len val0)).
      split; [rewrite (Hout name0 Hfresh), Hat1; apply lookup_insert_eq|].
      split.
      { cbn [Mem.arr]. rewrite Hext, length_app. lia. }
      rewrite (elems_extend h1 _ _ ext Hext) by (cbn [Mem.arr]; lia).
      pose proof (elems_length h val0 Hv0) as Hl.
      unfold Mem.elems at 1, Mem.array_at. cbn [Mem.arr Mem.off Mem.len].
      rewrite Harrays, list_lookup_middle by reflexivity. cbn [default from_option id drop].
      rewrite drop_0, take_ge by lia. reflexivity.
    + destruct (Hin name val Hel) as (s' & Hs' & Hrange & Helems).
      exists s'. split; [exact Hs'|]. split; [lia|].
      rewrite Helems. apply (elems_extend h h1 val _ Harrays).
      apply valid_slice_spec. apply (Hvalid name). now right.
Qed.

Lemma not_in_keys (M : gmap string Mem.slice) name :
  M !! name = None -> name ∉ (map_to_list M).*1.
Proof.
  intros Hnone Hin. apply list_elem_of_fmap in Hin as ([n v] & -> & Hin).
  apply elem_of_map_to_list in Hin. cbn in Hnone. congruence.
Qed.

(** The header map of the clone once the loop has run, starting from the
    fresh map [make(http.Header)] returned. *)
Lemma copy_headers_spec h req :
  Transport.valid_request h req = true ->
  let m := length (Mem.maps h) in
  let h2 := Transport.copy_headers m (fst (Mem.make_map h)) req in
  length (Mem.maps h2) = S m
  /\ (forall k, (k < m)%nat -> Mem.maps h2 !! k = Mem.maps h !! k)
  /\ (exists ext, Mem.arrays h2 = (Mem.arrays h ++ ext)%list)
  /\ (forall name, Mem.elems h2 <$> (Mem.map_at h2 m !! name) = Transport.header h req name)
  /\ (forall name s, Mem.map_at h2 m !! name = Some s ->
        (length (Mem.arrays h) <= Mem.arr s < length (Mem.arrays h2))%nat).
Proof.
  intros Hvalid m. cbv zeta. unfold Transport.valid_request in Hvalid.
  unfold Transport.copy_headers, Transport.header.
  set (h1 := fst (Mem.make_map h)).
  assert (Hm1 : Mem.map_at h1 m = ∅).
  { unfold Mem.map_at, h1. cbn. now rewrite list_lookup_middle. }
  assert (Hlen1 : length (Mem.maps h1) = S m).
  { unfold h1. cbn. rewrite length_app. cbn. lia. }
  assert (Hold : forall k, (k < m)%nat -> Mem.maps h1 !! k = Mem.maps h !! k).
  { intros k Hk. unfold h1. cbn. now apply lookup_app_l. }
  destruct (Transport.Header req) as [src|].
  - apply andb_prop in Hvalid as [Hsrc Hall]. apply Nat.ltb_lt in Hsrc.
    assert (Hsame : Mem.map_at h1 src = Mem.map_at h src).
    { unfold Mem.map_at. now rewrite Hold. }
    rewrite Hsame.
    set (M := Mem.map_at h src) in *.
    assert (Hentries : forall name val, (name, val) ∈ map_to_list M -> Transport.valid_slice h1 val = true).
    { intros name val Hin. rewrite forallb_forall in Hall.
      apply (Hall (name, val)). now apply list_elem_of_In. }
    destruct (copy_headers_fold m (map_to_list M) h1 ltac:(lia) Hentries
                (NoDup_fst_map_to_list M))
      as (Hlen & Hother & Hext & Hout & Hin).
    set (h2 := fold_left _ _ h1) in *.
    split; [lia|].
    split; [intros k Hk; rewrite Hother by lia; now apply Hold|].
    split; [exact Hext|].
    split.
    + intros name. destruct (M !! name) as [val|] eqn:E.
      * apply elem_of_map_to_list in E.
        destruct (Hin name val E) as (s' & -> & _ & Helems). cbn. now rewrite Helems.
      * rewrite (Hout name (not_in_keys M name E)), Hm1. now rewrite lookup_empty.
    + intros name s Hs. destruct (M !! name) as [val|] eqn:E.
      * apply elem_of_map_to_list in E.
        destruct (Hin name val E) as (s' & Hs' & Hrange & _).
        rewrite Hs' in Hs. injection Hs as <-. exact Hrange.
      * rewrite (Hout name (not_in_keys M name E)), Hm1, lookup_empty in Hs. discriminate.
  - split; [exact Hlen1|]. split; [exact Hold|].
    split; [exists []; unfold h1; cbn; now rewrite app_nil_r|].
    rewrite Hm1. split; [intros name; now rewrite lookup_empty|].
    intros name s Hs. rewrite lookup_empty in Hs. discriminate.
Qed.

Lemma header_preserved h h' req :
  Transport.valid_request h req = true ->
  (forall k, (k < length (Mem.maps h))%nat -> Mem.maps h' !! k = Mem.maps h !! k) ->
  (exists ext, Mem.arrays h' = (Mem.arrays h ++ ext)%list) ->
  forall name, Transport.header h' req name = Transport.header h req name.
Proof.
  intros Hvalid Hmaps [ext Hext] name. unfold Transport.valid_request in Hvalid.
  unfold Transport.header. destruct (Transport.Header req) as [src|]; [|reflexivity].
  apply andb_prop in Hvalid as [Hsrc Hall]. apply Nat.ltb_lt in Hsrc.
  unfold Mem.map_at at 1. rewrite (Hmaps src Hsrc). fold (Mem.map_at h src).
  destruct (Mem.map_at h src !! name) as [s|] eqn:E; [|reflexivity]. cbn. f_equal.
  apply (elems_extend h h' s ext Hext).
  rewrite forallb_forall in Hall.
  apply elem_of_map_to_list, list_elem_of_In in E.
  now apply (Hall _) in E as [E _]%valid_slice_spec.
Qed.

(** X23: the transport of token.go with a token that is not expired: the
    clone carries the bearer header, replacing any earlier value, in a map
    and in slices of its own; every other header is a copy of the
    caller's; and the heap the caller's request lives in is as it was. *)
Lemma RoundTrip_sets_header_on_clone (now : Time.Time) (tt : Transport.TokenTransport)
    h (req : Transport.Request) :
  Authy.Expired now (Transport.token tt) = false ->
  Transport.valid_request h req = true ->
  let newReq := Transport.mkRequest (Transport.Method req) (Transport.URL req)
                                    (Transport.Host req) (Some (length (Mem.maps h))) in
  exists h',
    Transport.RoundTrip now tt h req = Returns (h', newReq)
    /\ Transport.header h' newReq "Authorization"
       = Some ["Bearer " +:+ Authy.Value (Transport.token tt)]
    /\ (forall name, name <> "Authorization" ->
          Transport.header h' newReq name = Transport.header h req name)
    /\ (forall name s, Mem.map_at h' (length (Mem.maps h)) !! name = Some s ->
          (length (Mem.arrays h) <= Mem.arr s)%nat)
    /\ (forall k, (k < length (Mem.maps h))%nat -> Mem.maps h' !! k = Mem.maps h !! k)
    /\ (forall a, (a < length (Mem.arrays h))%nat -> Mem.arrays h' !! a = Mem.arrays h !! a)
    /\ (forall name, Transport.header h' req name = Transport.header h req name).
Proof.
  intros Hfresh Hvalid newReq.
  destruct (copy_headers_spec h req Hvalid) as (Hlen & Hold & [ext Hext] & Hcopy & Hrange).
  unfold Transport.RoundTrip. rewrite Hfresh. cbn [negb Mem.make_map].
  set (m := length (Mem.maps h)) in *.
  set (h2 := Transport.copy_headers m _ req) in *.
  cbn [Mem.slice_of].
  set (h3 := Mem.mkHeap (Mem.maps h2) _).
  set (bearer := Mem.mkSlice (length (Mem.arrays h2)) 0 _).
  set (h' := Mem.map_set h3 m "Authorization" bearer).
  assert (Hat : Mem.map_at h' m = <["Authorization" := bearer]> (Mem.map_at h2 m)).
  { unfold Mem.map_at at 1, h', Mem.map_set. cbn [Mem.maps].
    rewrite list_lookup_insert_eq by (unfold h3; cbn [Mem.maps]; lia). reflexivity. }
  assert (Hext' : Mem.arrays h'
                  = (Mem.arrays h2 ++ [["Bearer " +:+ Authy.Value (Transport.token tt)]])%list)
    by reflexivity.
  assert (Hmaps' : forall k, (k < m)%nat -> Mem.maps h' !! k = Mem.maps h !! k).
  { intros k Hk. unfold h', Mem.map_set. cbn [Mem.maps].
    rewrite list_lookup_insert_ne by lia. now apply Hold. }
  assert (Harr' : exists ext', Mem.arrays h' = (Mem.arrays h ++ ext')%list).
  { eexists. rewrite Hext', Hext, <- app_assoc. reflexivity. }
  exists h'. split; [reflexivity|].
  split.
  { unfold Transport.header, newReq. cbn [Transport.Header].
    rewrite Hat, lookup_insert_eq. cbn. f_equal.
    unfold Mem.elems, Mem.array_at, bearer. cbn [Mem.arr Mem.off Mem.len].
    rewrite Hext', list_lookup_middle by reflexivity. reflexivity. }
  split.
  { intros name Hne. unfold Transport.header at 1, newReq. cbn [Transport.Header].
    rewrite Hat, lookup_insert_ne by congruence. rewrite <- Hcopy.
    destruct (Mem.map_at h2 m !! name) as [s|] eqn:E; [|reflexivity]. cbn. f_equal.
    apply (elems_extend h2 h' s _ Hext'). now apply (Hrange name). }
  split.
  { intros name s. rewrite Hat. destruct (decide (name = "Authorization")) as [->|Hne].
    - rewrite lookup_insert_eq. intros [= <-]. unfold bearer. cbn [Mem.arr].
      rewrite Hext, length_app. lia.
    - rewrite lookup_insert_ne by congruence. intros Hs. now apply (Hrange name). }
  split; [exact Hmaps'|].
  split.
  { destruct Harr' as [ext' ->]. intros a Ha. now apply lookup_app_l. }
  now apply header_preserved.
Qed.

(** The transport of part_001: the bearer header lands in the caller's own
    map, and the clone has only what the caller's map held before. *)
Lemma Legacy_RoundTrip_sets_header_on_original (now : Time.Time)
    (tt : Legacy.TokenTransport) h (req : Transport.Request) (orig : nat) :
  Legacy.Expired now (Legacy.token tt) = false ->
  Transport.valid_request h req = true ->
  Transport.Header req = Some orig ->
  exists h' newReq,
    Legacy.RoundTrip now tt h req = Returns (h', newReq)
    /\ Transport.header h' req "Authorization"
       = Some ["Bearer " +:+ Legacy.Value (Legacy.token tt)]
    /\ Transport.header h' newReq "Authorization"
       = Transport.header h req "Authorization".
Proof.
  intros Hfresh Hvalid Horig.
  destruct (copy_headers_spec h req Hvalid) as (Hlen & Hold & [ext Hext] & Hcopy & Hrange).
  assert (Hsrc : (orig < length (Mem.maps h))%nat).
  { unfold Transport.valid_request in Hvalid. rewrite Horig in Hvalid.
    now apply andb_prop in Hvalid as [Hsrc%Nat.ltb_lt _]. }
  unfold Legacy.RoundTrip. rewrite Hfresh, Horig. cbn [negb Mem.make_map].
  set (m := length (Mem.maps h)) in *.
  set (h2 := Transport.copy_headers m _ req) in *.
  cbn [Mem.slice_of].
  set (h3 := Mem.mkHeap (Mem.maps h2) _).
  set (bearer := Mem.mkSlice (length (Mem.arrays h2)) 0 _).
  set (h' := Mem.map_set h3 orig "Authorization" bearer).
  assert (Hext' : Mem.arrays h'
                  = (Mem.arrays h2 ++ [["Bearer " +:+ Legacy.Value (Legacy.token tt)]])%list)
    by reflexivity.
  exists h'. eexists. split; [reflexivity|]. split.
  - unfold Transport.header. rewrite Horig.
    unfold Mem.map_at at 1, h', Mem.map_set. cbn [Mem.maps].
    rewrite list_lookup_insert_eq by (unfold h3; cbn [Mem.maps]; lia).
    cbn [default from_option id].
    rewrite lookup_insert_eq. cbn. f_equal.
    unfold Mem.elems, Mem.array_at, bearer. cbn [Mem.arr Mem.off Mem.len].
    cbn [Mem.arrays]. unfold h3. cbn [Mem.arrays].
    rewrite list_lookup_middle by reflexivity. reflexivity.
  - rewrite <- Hcopy. unfold Transport.header at 1. cbn [Transport.Header].
    assert (Hat : Mem.map_at h' m = Mem.map_at h2 m).
    { unfold Mem.map_at, h', Mem.map_set. cbn [Mem.maps].
      now rewrite list_lookup_insert_ne by lia. }
    rewrite Hat.
    destruct (Mem.map_at h2 m !! "Authorization") as [s|] eqn:E; [|reflexivity]. cbn. f_equal.
    apply (elems_extend h2 h' s _ Hext'). now apply (Hrange "Authorization").
Qed.
End TransportProperties.

(** * Further properties *)

(** ** Provider errors *)

Lemma all_bytes_filter (keep : ascii -> bool) (s : string) :
  all_bytes keep (OAuth2.filter_bytes keep s) = true.
Proof.
  induction s as [|c s IH]; [reflexivity|]. simpl.
  destruct (keep c) eqn:E; [simpl; now rewrite E | exact IH].
Qed.

Lemma all_bytes_weaken (p q : ascii -> bool) (s : string) :
  (forall c, p c = true -> q c = true) ->
  all_bytes p s = true -> all_bytes q s = true.
Proof.
  intros Hpq. induction s as [|c s IH]; [reflexivity|]. simpl.
  intros [Hc Hs]%andb_prop. now rewrite (Hpq c Hc), IH.
Qed.


(** X2: every byte of the code and of the description of such an error is
    printable ASCII and no backslash; the URI has no space either. *)
Theorem NewError_fields_sanitized (response : Url.Values) :
  let clean c := OAuth2.printable c && negb (Ascii.eqb c "\") in
  let e := OAuth2.NewError response in
  all_bytes clean (OAuth2.Code e) = true
  /\ all_bytes clean (OAuth2.Description e) = true
  /\ all_bytes (fun c => clean c && negb (Ascii.eqb c " ")) (OAuth2.URI e) = true.
Proof.
  intros clean e. unfold e, OAuth2.NewError.
  destruct (is_empty (OAuth2.errorTextRe_strip (Url.Get response "error"))); cbn [OAuth2.Code OAuth2.Description OAuth2.URI].
  - repeat split; vm_compute; reflexivity.
  - repeat split; apply all_bytes_filter.
Qed.

(** ** The CSRF state *)

Lemma hex_byte_decodes (c : ascii) :
  Url.byte_of (16 * Url.unhex (OAuth2.hexdigit (Z.shiftr (byte_val c) 4))
               + Url.unhex (OAuth2.hexdigit (Z.land (byte_val c) 15))) = c.
Proof. destruct c as [[] [] [] [] [] [] [] []]; reflexivity. Qed.

Lemma hexdigit_lower_hex (c : ascii) :
  lower_hex (OAuth2.hexdigit (Z.shiftr (byte_val c) 4)) = true
  /\ lower_hex (OAuth2.hexdigit (Z.land (byte_val c) 15)) = true.
Proof. destruct c as [[] [] [] [] [] [] [] []]; split; reflexivity. Qed.

Lemma hex_EncodeToString_inj (a b : string) :
  OAuth2.hex_EncodeToString a = OAuth2.hex_EncodeToString b -> a = b.
Proof.
  revert b. induction a as [|c a IH]; intros [|d b] H; simpl in H; try discriminate.
  - reflexivity.
  - injection H as Hhi Hlo Hrest.
    rewrite <- (hex_byte_decodes c), <- (hex_byte_decodes d), Hhi, Hlo.
    f_equal. now apply IH.
Qed.

(** X3: when the random source delivers its bytes, [NewState] returns no
    error and a state of two lower-case hexadecimal digits per byte (32 for
    the 16 bytes read), and different bytes give different states; when the
    source fails, its error is returned with an empty state. *)
Theorem NewState_hex (rawState : string) :
  exists state,
    OAuth2.NewState (inl rawState) = (state, None)
    /\ String.length state = (2 * String.length rawState)%nat
    /\ all_bytes lower_hex state = true
    /\ (forall other, OAuth2.NewState (inl other) = (state, None) -> other = rawState)
    /\ (forall err, OAuth2.NewState (inr err) = ("", Some err)).
Proof.
  exists (OAuth2.hex_EncodeToString rawState). split; [reflexivity|].
  split; [|split; [|split]].
  - induction rawState as [|c s IH]; [reflexivity|]. simpl. rewrite IH. lia.
  - induction rawState as [|c s IH]; [reflexivity|].
    destruct (hexdigit_lower_hex c) as [Hhi Hlo].
    cbn [OAuth2.hex_EncodeToString all_bytes]. now rewrite Hhi, Hlo, IH.
  - intros other [= H]. now apply hex_EncodeToString_inj.
  - reflexivity.
Qed.

(** ** The token entity *)

(** X4: once a token is expired it stays expired at every later clock
    reading. *)
Theorem Expired_monotone (now later : Time.Time) (t : Authy.Token) :
  now <= later -> Authy.Expired now t = true -> Authy.Expired later t = true.
Proof.
  unfold Authy.Expired, Time.After. destruct (Authy.Expires t); [lia | discriminate].
Qed.

Lemma Expired_monotone_witness :
  Authy.Expired 2000 (Ex.token 2 (Some 1000) "") = true.
Proof.
  apply (Expired_monotone 1001 2000 (Ex.token 2 (Some 1000) "")); [lia | reflexivity].
Defined.

(** X5: converting a provider token to the engine's token and back gives
    the provider token again; and a version-2 token is the one rebuilt from
    its conversion for its own engine and provider. *)
Theorem Token_oauth2_roundtrip (a : Authy.Authy) (provider : string) (t : OAuth2.Token)
    (u : Authy.Token) :
  Authy.Token_oauth2 (Authy.tokenFromOAuth2 a provider t) = t
  /\ (Authy.Version u = 2 ->
      Authy.tokenFromOAuth2 (Authy.authy u) (Authy.Provider u) (Authy.Token_oauth2 u) = u).
Proof.
  split; [now destruct t|]. destruct u; cbn. now intros ->.
Qed.

(** ** The token-response parser, errors *)

(** X6: [parseTokenResponse] fails exactly when [access_token] or
    [token_type] is missing or empty, with the [invalid_response] error
    carrying the response; neither [scope] nor [expires_in] can make it
    fail, and a token returned without error has both fields set, taken
    with the refresh token from the response. *)
Theorem parseTokenResponse_error_iff (now : Time.Time) (config : ProviderConfig.t)
    (values : Url.Values) :
  let result := OAuth2.parseTokenResponse now config values in
  let missing := is_empty (Url.Get values "access_token")
                 || is_empty (Url.Get values "token_type") in
  snd result
    = (if missing
       then Some (OAuth2.oauth2_Error
                    (OAuth2.mkError "invalid_response"
                       "The response returned by the server couldn't be parsed by Authy"
                       "" values))
       else None)
  /\ OAuth2.AccessToken (fst result) = Url.Get values "access_token"
  /\ OAuth2.Type_ (fst result) = Url.Get values "token_type"
  /\ OAuth2.RefreshToken (fst result) = Url.Get values "refresh_token"
  /\ (missing = false ->
      OAuth2.Scope (fst result)
      = if is_empty (Url.Get values "scope") then []
        else Strings.Split (Url.Get values "scope")
               (ProviderData.ScopeDelimiter (ProviderConfig.Provider config))).
Proof.
  intros result missing. unfold result, missing, OAuth2.parseTokenResponse.
  cbn [OAuth2.AccessToken OAuth2.Type_].
  destruct (is_empty (Url.Get values "access_token") || is_empty (Url.Get values "token_type"));
    [repeat split; discriminate|].
  destruct (is_empty (Url.Get values "scope"));
    destruct (is_empty (Url.Get values "expires_in")); cbn [negb];
    try (destruct (Strconv.ParseInt10 _ 32) as [n [e|]]); repeat split.
Qed.

(** ** The callback URL *)

Lemma append_nil_r (a : string) : a +:+ "" = a.
Proof. induction a as [|x a IH]; [reflexivity | exact (f_equal (String x) IH)]. Qed.

Lemma escape_app (a b : string) (mode : Url.encoding) :
  Url.escape (a +:+ b) mode = Url.escape a mode +:+ Url.escape b mode.
Proof.
  induction a as [|c a IH]; [reflexivity|].
  change (String c a +:+ b) with (String c (a +:+ b)).
  change (Url.escape (String c (a +:+ b)) mode)
    with (if Ascii.eqb c " "
             && match mode with Url.encodeQueryComponent => true | _ => false end
          then String "+" (Url.escape (a +:+ b) mode)
          else if Url.shouldEscape c mode
          then String "%" (String (Url.upperhex (Z.shiftr (byte_val c) 4))
                             (String (Url.upperhex (Z.land (byte_val c) 15))
                                (Url.escape (a +:+ b) mode)))
          else String c (Url.escape (a +:+ b) mode)).
  change (Url.escape (String c a) mode)
    with (if Ascii.eqb c " "
             && match mode with Url.encodeQueryComponent => true | _ => false end
          then String "+" (Url.escape a mode)
          else if Url.shouldEscape c mode
          then String "%" (String (Url.upperhex (Z.shiftr (byte_val c) 4))
                             (String (Url.upperhex (Z.land (byte_val c) 15))
                                (Url.escape a mode)))
          else String c (Url.escape a mode)).
  rewrite IH.
  destruct (Ascii.eqb c " " && _); [reflexivity|].
  destruct (Url.shouldEscape c mode); reflexivity.
Qed.

Lemma callback_path_not_star (p : string) : String.eqb (p +:+ "/callback") "*" = false.
Proof.
  apply String.eqb_neq. intros H. apply (f_equal String.length) in H.
  rewrite append_length_eq in H. simpl in H. lia.
Qed.

Lemma is_empty_app_callback (p : string) : is_empty (p +:+ "/callback") = false.
Proof. now destruct p. Qed.

Lemma HasPrefix_app (a x : string) : Strings.HasPrefix (a +:+ x) a = true.
Proof.
  induction a as [|c a IH]; [now destruct x|].
  change (Strings.HasPrefix (String c a +:+ x) (String c a))
    with (Ascii.eqb c c && Strings.HasPrefix (a +:+ x) a).
  now rewrite Ascii.eqb_refl, IH.
Qed.

(** X7: the callback URL does not depend on the provider configuration; it
    starts with https:// exactly when the inbound connection used TLS or
    the request has an X-HTTPS header, and with http:// otherwise. *)
Theorem genCallbackURL_scheme (config config' : ProviderConfig.t) (r : Http.Request) :
  let secure := Http.TLS r || bool_decide (is_Some (Http.Header r !! "X-HTTPS")) in
  OAuth2.genCallbackURL config r = OAuth2.genCallbackURL config' r
  /\ Strings.HasPrefix (OAuth2.genCallbackURL config r) "https://" = secure
  /\ Strings.HasPrefix (OAuth2.genCallbackURL config r) "http://" = negb secure.
Proof.
  intros secure. split; [reflexivity|].
  unfold OAuth2.genCallbackURL, Url.String_. fold secure.
  cbn [Url.Scheme Url.Host Url.Path Url.RawQuery].
  rewrite is_empty_app_callback.
  destruct secure; destruct (Http.Host r); split;
    first [ reflexivity
          | exact (HasPrefix_app "https://" _)
          | exact (HasPrefix_app "http://" _) ].
Qed.

Lemma HasPrefix_slash_callback (e x : string) :
  Strings.HasPrefix ((e +:+ "/callback") +:+ x) "/"
  = Strings.HasPrefix (e +:+ "/callback") "/".
Proof.
  destruct e as [|c e]; [reflexivity|].
  change (Ascii.eqb "/" c && Strings.HasPrefix ((e +:+ "/callback") +:+ x) ""
          = Ascii.eqb "/" c && Strings.HasPrefix (e +:+ "/callback") "").
  now destruct ((e +:+ "/callback") +:+ x), (e +:+ "/callback").
Qed.

(** X8: the callback URL follows the path of the request it is computed
    from: for a request whose path is another's followed by /callback (same
    host, same TLS and X-HTTPS signals), it is the other's callback URL
    followed by /callback. *)
Theorem genCallbackURL_of_callback_path (config : ProviderConfig.t) (r r' : Http.Request) :
  Http.Host r' = Http.Host r ->
  Http.TLS r' = Http.TLS r ->
  Http.Header r' !! "X-HTTPS" = Http.Header r !! "X-HTTPS" ->
  Url.Path (Http.URL r') = Url.Path (Http.URL r) +:+ "/callback" ->
  OAuth2.genCallbackURL config r' = OAuth2.genCallbackURL config r +:+ "/callback".
Proof.
  intros Hhost Htls Hhdr Hpath.
  unfold OAuth2.genCallbackURL, Url.String_. rewrite Hhost, Htls, Hhdr, Hpath.
  cbn [Url.Scheme Url.Host Url.Path Url.RawQuery].
  set (p := Url.Path (Http.URL r)).
  rewrite !callback_path_not_star, !is_empty_app_callback, !escape_app.
  replace (Url.escape "/callback" Url.encodePath) with "/callback" by reflexivity.
  set (e := Url.escape p Url.encodePath).
  rewrite (HasPrefix_slash_callback e "/callback").
  replace (is_empty ((e +:+ "/callback") +:+ "/callback")) with false by now destruct e.
  replace (is_empty (e +:+ "/callback")) with false by now destruct e.
  destruct (Http.TLS r || _); destruct (Http.Host r) as [|h0 host];
    destruct (Strings.HasPrefix (e +:+ "/callback") "/");
    cbn -[Ascii.eqb String.append Url.escape];
    rewrite !append_assoc; cbn [String.append]; rewrite ?append_nil_r; reflexivity.
Qed.

Lemma genCallbackURL_of_callback_path_witness :
  OAuth2.genCallbackURL Ex.github_k1 Ex.returning_request
  = OAuth2.genCallbackURL Ex.github_k1 Ex.login_request +:+ "/callback".
Proof.
  apply (genCallbackURL_of_callback_path Ex.github_k1 Ex.login_request Ex.returning_request);
    reflexivity.
Defined.

(** ** The authorization request *)

Lemma Add_fresh (v : Url.Values) (key value : string) :
  v !! key = None -> Url.Add v key value = <[key := [value]]> v.
Proof. intros H. unfold Url.Add. now rewrite H. Qed.

(** The values of the request itself, before the custom parameters. *)
Lemma authorization_values_lookup (q : OAuth2.authorizationRequest) (name : string) :
  OAuth2.query_Values_authorizationRequest q !! name
  = if String.eqb name "state" then
      (if is_empty (OAuth2.ar_State q) then None else Some [OAuth2.ar_State q])
    else if String.eqb name "scope" then
      (if is_empty (OAuth2.ar_Scope q) then None else Some [OAuth2.ar_Scope q])
    else if String.eqb name "redirect_uri" then
      (if is_empty (OAuth2.ar_RedirectURI q) then None else Some [OAuth2.ar_RedirectURI q])
    else if String.eqb name "response_type" then Some [OAuth2.ar_ResponseType q]
    else if String.eqb name "client_id" then Some [OAuth2.ar_ClientId q]
    else None.
Proof.
  unfold OAuth2.query_Values_authorizationRequest, OAuth2.add_omitempty.
  rewrite (Add_fresh ∅ "client_id") by apply lookup_empty.
  rewrite (Add_fresh _ "response_type") by (now rewrite lookup_insert_ne).
  set (v2 := <["response_type" := _]> _).
  assert (H2 : forall k, k <> "response_type" -> k <> "client_id" -> v2 !! k = None).
  { intros k H1 H0. unfold v2. rewrite !lookup_insert_ne by congruence. apply lookup_empty. }
  set (v3 := if is_empty (OAuth2.ar_RedirectURI q) then v2 else _).
  assert (H3 : forall k, k <> "redirect_uri" -> v3 !! k = v2 !! k).
  { intros k Hk. unfold v3. destruct (is_empty (OAuth2.ar_RedirectURI q)); [reflexivity|].
    rewrite Add_fresh by (now apply H2). now rewrite lookup_insert_ne. }
  assert (H3' : v3 !! "redirect_uri"
                = if is_empty (OAuth2.ar_RedirectURI q) then None
                  else Some [OAuth2.ar_RedirectURI q]).
  { unfold v3. destruct (is_empty (OAuth2.ar_RedirectURI q)); [now apply H2|].
    rewrite Add_fresh by (now apply H2). apply lookup_insert_eq. }
  set (v4 := if is_empty (OAuth2.ar_Scope q) then v3 else _).
  assert (H4 : forall k, k <> "scope" -> v4 !! k = v3 !! k).
  { intros k Hk. unfold v4. destruct (is_empty (OAuth2.ar_Scope q)); [reflexivity|].
    rewrite Add_fresh by (rewrite H3 by discriminate; now apply H2).
    now rewrite lookup_insert_ne. }
  assert (H4' : v4 !! "scope"
                = if is_empty (OAuth2.ar_Scope q) then None else Some [OAuth2.ar_Scope q]).
  { unfold v4. destruct (is_empty (OAuth2.ar_Scope q)).
    - rewrite H3 by discriminate. now apply H2.
    - rewrite Add_fresh by (rewrite H3 by discriminate; now apply H2).
      apply lookup_insert_eq. }
  assert (H5 : v4 !! "state" = None).
  { rewrite H4, H3 by discriminate. now apply H2. }
  destruct (String.eqb_spec name "state") as [->|Hn1].
  { destruct (is_empty (OAuth2.ar_State q)); [exact H5|].
    rewrite Add_fresh by exact H5. apply lookup_insert_eq. }
  assert (Hlast : (if is_empty (OAuth2.ar_State q) then v4
                   else Url.Add v4 "state" (OAuth2.ar_State q)) !! name = v4 !! name).
  { destruct (is_empty (OAuth2.ar_State q)); [reflexivity|].
    rewrite Add_fresh by exact H5. now rewrite lookup_insert_ne. }
  rewrite Hlast.
  destruct (String.eqb_spec name "scope") as [->|Hn2]; [exact H4'|].
  rewrite H4 by exact Hn2.
  destruct (String.eqb_spec name "redirect_uri") as [->|Hn3]; [exact H3'|].
  rewrite H3 by exact Hn3.
  destruct (String.eqb_spec name "response_type") as [->|Hn4];
    [unfold v2; apply lookup_insert_eq|].
  destruct (String.eqb_spec name "client_id") as [->|Hn5].
  { unfold v2. rewrite lookup_insert_ne by discriminate. apply lookup_insert_eq. }
  now apply H2.
Qed.

(** What the loop over the provider's custom parameter names leaves under
    a key. *)
Lemma fold_set_custom (params : gmap string string) (names : list string)
    (values : Url.Values) (name : string) :
  fold_left (OAuth2.set_custom params) names values !! name
  = match params !! name with
    | Some value => if bool_decide (name ∈ names) then Some [value] else values !! name
    | None => values !! name
    end.
Proof.
  revert values. induction names as [|n names IH]; intros values; cbn [fold_left].
  - now destruct (params !! name).
  - rewrite IH. unfold OAuth2.set_custom, Url.Set_.
    destruct (decide (name = n)) as [->|Hne].
    + destruct (params !! n) as [value|] eqn:E; [|reflexivity].
      rewrite lookup_insert_eq, (bool_decide_eq_true_2 (n ∈ n :: names)) by left.
      now destruct (bool_decide (n ∈ names)).
    + assert (Hin : bool_decide (name ∈ n :: names) = bool_decide (name ∈ names)).
      { apply bool_decide_ext. rewrite elem_of_cons. tauto. }
      rewrite Hin.
      assert (Hv : (match params !! n with
                    | Some value => <[n := [value]]> values
                    | None => values
                    end) !! name = values !! name).
      { destruct (params !! n); [now rewrite lookup_insert_ne|reflexivity]. }
      now rewrite Hv.
Qed.

Lemma authorize_values_lookup (config : ProviderConfig.t) (r : Http.Request) (name : string) :
  OAuth2.authorize_values config r !! name
  = let base := OAuth2.query_Values_authorizationRequest {|
        OAuth2.ar_ClientId := ProviderConfig.Key config;
        OAuth2.ar_ResponseType := "code";
        OAuth2.ar_RedirectURI := OAuth2.genCallbackURL config r;
        OAuth2.ar_Scope :=
          Strings.Join (ProviderConfig.Scope config)
            (ProviderData.ScopeDelimiter (ProviderConfig.Provider config));
        OAuth2.ar_State := ProviderConfig.State config |} in
    match ProviderConfig.CustomParameters config !! name with
    | Some value =>
        if bool_decide
             (name ∈ ProviderData.CustomParameters (ProviderConfig.Provider config))
        then Some [value] else base !! name
    | None => base !! name
    end.
Proof.
  cbv zeta. unfold OAuth2.authorize_values. case_bool_decide as Hsize.
  - apply fold_set_custom.
  - assert (Hempty : ProviderConfig.CustomParameters config = ∅).
    { apply map_size_empty_iff. lia. }
    now rewrite Hempty, lookup_empty.
Qed.

(** X9: a custom parameter the caller supplies under a name the provider
    does not support never reaches the request: unless it is one of the
    five standard keys, that name is absent from the values. *)
Theorem unsupported_custom_parameter_dropped (config : ProviderConfig.t)
    (r : Http.Request) (name : string) :
  name ∉ ProviderData.CustomParameters (ProviderConfig.Provider config) ->
  name ∉ ["client_id"; "response_type"; "redirect_uri"; "scope"; "state"] ->
  OAuth2.authorize_values config r !! name = None.
Proof.
  intros Hunsupported Hstd. rewrite authorize_values_lookup. cbv zeta.
  rewrite (bool_decide_eq_false_2 _ Hunsupported).
  assert (Hbase : forall q, OAuth2.query_Values_authorizationRequest q !! name = None).
  { intros q. rewrite authorization_values_lookup.
    repeat (rewrite not_elem_of_cons in Hstd; destruct Hstd as [? Hstd]).
    now rewrite !eqb_false_of_neq. }
  rewrite Hbase. now destruct (_ !! name).
Qed.

Lemma unsupported_custom_parameter_dropped_witness :
  OAuth2.authorize_values Ex.github_custom Ex.login_request !! "prompt" = None.
Proof.
  apply (unsupported_custom_parameter_dropped Ex.github_custom Ex.login_request "prompt").
  - vm_compute. intros H. repeat (apply elem_of_cons in H as [H|H]; [discriminate|]).
    inversion H.
  - intros H. repeat (apply elem_of_cons in H as [H|H]; [discriminate|]). inversion H.
Defined.

(** X10: a custom parameter the caller supplies under a name the provider
    supports is sent with the caller's value, as the only value of that
    key. *)
Theorem supported_custom_parameter_sent (config : ProviderConfig.t)
    (r : Http.Request) (name value : string) :
  name ∈ ProviderData.CustomParameters (ProviderConfig.Provider config) ->
  ProviderConfig.CustomParameters config !! name = Some value ->
  OAuth2.authorize_values config r !! name = Some [value].
Proof.
  intros Hsupported Hparam. rewrite authorize_values_lookup. cbv zeta.
  now rewrite Hparam, (bool_decide_eq_true_2 _ Hsupported).
Qed.

Lemma supported_custom_parameter_sent_witness :
  OAuth2.authorize_values Ex.github_custom Ex.login_request !! "access_type" = Some ["offline"].
Proof.
  apply (supported_custom_parameter_sent Ex.github_custom Ex.login_request
           "access_type" "offline").
  - vm_compute. left.
  - vm_compute. reflexivity.
Defined.

(** X11: when the caller supplies no custom parameter named like a
    standard key, the request carries the client id, [response_type=code]
    and the callback URL always, the joined scope only when it is not
    empty, and the state only when it is not empty. *)
Theorem authorize_values_standard (config : ProviderConfig.t) (r : Http.Request) :
  (forall key, key ∈ ["client_id"; "response_type"; "redirect_uri"; "scope"; "state"] ->
               ProviderConfig.CustomParameters config !! key = None) ->
  let values := OAuth2.authorize_values config r in
  let scope := Strings.Join (ProviderConfig.Scope config)
                 (ProviderData.ScopeDelimiter (ProviderConfig.Provider config)) in
  values !! "client_id" = Some [ProviderConfig.Key config]
  /\ values !! "response_type" = Some ["code"]
  /\ values !! "redirect_uri" = Some [OAuth2.genCallbackURL config r]
  /\ values !! "scope" = (if is_empty scope then None else Some [scope])
  /\ values !! "state"
     = (if is_empty (ProviderConfig.State config) then None
        else Some [ProviderConfig.State config]).
Proof.
  intros Hnone values scope. unfold values.
  rewrite !authorize_values_lookup. cbv zeta.
  rewrite !Hnone by (repeat first [left | right]).
  rewrite !authorization_values_lookup.
  cbn [OAuth2.ar_ClientId OAuth2.ar_ResponseType OAuth2.ar_RedirectURI OAuth2.ar_Scope
       OAuth2.ar_State].
  rewrite genCallbackURL_not_empty. repeat split.
Qed.

Lemma authorize_values_standard_witness :
  OAuth2.authorize_values Ex.github_k1 Ex.login_request !! "scope" = Some ["repo user:email"]
  /\ OAuth2.authorize_values Ex.github_k1 Ex.login_request !! "state" = None.
Proof.
  assert (H : forall key,
             key ∈ ["client_id"; "response_type"; "redirect_uri"; "scope"; "state"] ->
             ProviderConfig.CustomParameters Ex.github_k1 !! key = None)
    by (intros key _; apply lookup_empty).
  destruct (authorize_values_standard Ex.github_k1 Ex.login_request H)
    as (_ & _ & _ & Hscope & Hstate).
  split; [exact Hscope | exact Hstate].
Defined.

(** ** The exchange *)

Lemma parseTokenResponse_ok (now : Time.Time) (config : ProviderConfig.t)
    (values : Url.Values) (token : OAuth2.Token) :
  OAuth2.parseTokenResponse now config values = (token, None) ->
  is_empty (OAuth2.AccessToken token) = false /\ is_empty (OAuth2.Type_ token) = false.
Proof.
  unfold OAuth2.parseTokenResponse. cbn [OAuth2.AccessToken OAuth2.Type_].
  destruct (is_empty (Url.Get values "access_token")) eqn:Ea; [discriminate|].
  destruct (is_empty (Url.Get values "token_type")) eqn:Et; [discriminate|].
  cbn [orb]. intros [= <-].
  destruct (negb (is_empty (Url.Get values "scope")));
    destruct (negb (is_empty (Url.Get values "expires_in")));
    try (destruct (Strconv.ParseInt10 _ 32) as [n [e|]]); now split.
Qed.

Lemma read_token_ok (now : Time.Time) (config : ProviderConfig.t)
    (reply : string + OAuth2.error) (token : OAuth2.Token) :
  OAuth2.read_token now config reply = (token, None) ->
  is_empty (OAuth2.AccessToken token) = false /\ is_empty (OAuth2.Type_ token) = false.
Proof.
  unfold OAuth2.read_token. destruct reply as [body|err]; [|discriminate].
  destruct (Url.ParseQuery body) as [values [e|]]; [discriminate|].
  destruct (Url.Has values "error"); [discriminate|]. apply parseTokenResponse_ok.
Qed.

(** X12: [GetAccessToken] posts one form, to the provider's access-token
    URL: [grant_type=authorization_code], the client id and secret, the
    [code] of the request's query (sent even when empty) and the callback
    URL computed from the request; what it returns is read from the reply
    to that form. *)
Theorem GetAccessToken_posts_exchange_form
    (http_PostForm : string -> Url.Values -> string + OAuth2.error)
    (now : Time.Time) (config : ProviderConfig.t) (r : Http.Request) :
  let accessURL := ProviderData.AccessURL (ProviderConfig.Provider config) in
  exists form,
    OAuth2.GetAccessToken http_PostForm now config r
      = ([(accessURL, form)], OAuth2.read_token now config (http_PostForm accessURL form))
    /\ form !! "grant_type" = Some ["authorization_code"]
    /\ form !! "client_id" = Some [ProviderConfig.Key config]
    /\ form !! "client_secret" = Some [ProviderConfig.Secret config]
    /\ form !! "code" = Some [Url.Get (Url.Query (Http.URL r)) "code"]
    /\ form !! "redirect_uri" = Some [OAuth2.genCallbackURL config r]
    /\ dom form = {["grant_type"; "client_id"; "client_secret"; "code"; "redirect_uri"]}.
Proof.
  intros accessURL. eexists. split; [reflexivity|].
  unfold OAuth2.query_Values_accessTokenRequest, OAuth2.add_omitempty.
  cbn [OAuth2.at_ClientId OAuth2.at_ClientSecret OAuth2.at_GrantType OAuth2.at_Code
       OAuth2.at_RedirectURI].
  rewrite genCallbackURL_not_empty.
  rewrite (Add_fresh ∅ "client_id") by apply lookup_empty.
  rewrite (Add_fresh _ "client_secret") by (now rewrite lookup_insert_ne).
  rewrite (Add_fresh _ "grant_type") by (now rewrite !lookup_insert_ne).
  rewrite (Add_fresh _ "code") by (now rewrite !lookup_insert_ne).
  rewrite (Add_fresh _ "redirect_uri") by (now rewrite !lookup_insert_ne).
  repeat split;
    try (repeat (rewrite lookup_insert_ne by discriminate); now rewrite lookup_insert_eq);
    try (rewrite !dom_insert_L, dom_empty_L; set_solver).
Qed.

(** ** The session orchestrator, outcomes *)

Section OrchestratorProperties.

Variable url_Parse : string -> Url.URL + OAuth2.error.
Variable http_PostForm : string -> Url.Values -> string + OAuth2.error.
Variable now : Time.Time.

(** X13: [Access] returns either a token and no error, or an error with no
    token and an empty redirect, or it panics.  With an error or a panic
    the session is exactly as it was (and a panic comes before anything is
    posted); a returned token has a non-empty value and type, version 2,
    the provider's name and the engine that made it. *)
Theorem Access_outcome_shape (a : Authy.Authy) (providerName : string)
    (session : Authy.Session) (r : Http.Request) :
  match Authy.Access http_PostForm now a providerName session r with
  | (_, _, Returns (Some tok, _, None)) =>
      is_empty (Authy.Value tok) = false /\ is_empty (Authy.Type_ tok) = false
      /\ Authy.Version tok = 2 /\ Authy.Provider tok = providerName /\ Authy.authy tok = a
  | (session', _, Returns (None, redirect, Some _)) => redirect = "" /\ session' = session
  | (session', posted, Panics _) => session' = session /\ posted = []
  | _ => False
  end.
Proof.
  unfold Authy.Access, Authy.Session_Get, Authy.fail.
  destruct (Authy.providers a !! providerName) as [pc|]; [|now split].
  destruct (ProviderData.OAuth (ProviderConfig.Provider pc) =? 2); [|now split].
  destruct (session !! Authy.state_key providerName) as [[S| |]|]; try now split.
  destruct (negb _); [now split|].
  destruct (session !! Authy.scope_key S) as [[scope| |]|]; try now split.
  destruct (is_empty _); [now split|].
  unfold OAuth2.GetAccessToken.
  destruct (OAuth2.read_token _ _ _) as [token [e|]] eqn:E; [now split|].
  apply read_token_ok in E as [Hv Ht].
  destruct (length (OAuth2.Scope token) =? 0)%nat; now cbn.
Qed.

(** X14: [Access] posts to the provider only after the stored state was
    found equal to the request's [state] parameter and a [code] was
    present; what it posts is then the one form of [GetAccessToken]. *)
Theorem Access_posts_only_after_state_check (a : Authy.Authy) (providerName : string)
    (session : Authy.Session) (r : Http.Request) :
  snd (fst (Authy.Access http_PostForm now a providerName session r)) <> [] ->
  exists S providerConfig,
    Authy.providers a !! providerName = Some providerConfig
    /\ session !! Authy.state_key providerName = Some (Authy.VString S)
    /\ Url.Get (Url.Query (Http.URL r)) "state" = S
    /\ is_empty (Url.Get (Url.Query (Http.URL r)) "code") = false
    /\ snd (fst (Authy.Access http_PostForm now a providerName session r))
       = fst (OAuth2.GetAccessToken http_PostForm now providerConfig r).
Proof.
  unfold Authy.Access, Authy.Session_Get, Authy.fail.
  destruct (Authy.providers a !! providerName) as [pc|]; [|now cbn].
  destruct (ProviderData.OAuth (ProviderConfig.Provider pc) =? 2); [|now cbn].
  destruct (session !! Authy.state_key providerName) as [[S| |]|]; try now cbn.
  destruct (String.eqb_spec (Url.Get (Url.Query (Http.URL r)) "state") S) as [Heq|Hne];
    [|now cbn].
  cbn [negb].
  destruct (session !! Authy.scope_key S) as [[scope| |]|]; try now cbn.
  destruct (is_empty (Url.Get (Url.Query (Http.URL r)) "code")) eqn:Ecode; [now cbn|].
  intros _. exists S, pc. repeat split; try assumption.
  destruct (OAuth2.GetAccessToken _ _ _ _) as [posted [token [e|]]]; reflexivity.
Qed.

(** X15: the redirect destination of a successful [Access] is the
    provider's own callback when one is configured and the engine-wide
    callback otherwise; and the token's provider is registered with the
    token's engine, so a later [Refresh] finds it. *)
Theorem Access_success_redirect (a : Authy.Authy) (providerName : string)
    (session session' : Authy.Session) (r : Http.Request)
    (posted : list OAuth2.Posted) (tok : Authy.Token) (redirect : string) :
  Authy.Access http_PostForm now a providerName session r
    = (session', posted, Returns (Some tok, redirect, None)) ->
  exists providerConfig,
    Authy.providers (Authy.authy tok) !! Authy.Provider tok = Some providerConfig
    /\ ProviderData.OAuth (ProviderConfig.Provider providerConfig) = 2
    /\ redirect = (if is_empty (ProviderConfig.Callback providerConfig)
                   then Authy.Callback (Authy.config a)
                   else ProviderConfig.Callback providerConfig).
Proof.
  unfold Authy.Access, Authy.Session_Get, Authy.fail.
  destruct (Authy.providers a !! providerName) as [pc|] eqn:Hp; [|discriminate].
  destruct (ProviderData.OAuth (ProviderConfig.Provider pc) =? 2) eqn:Hv; [|discriminate].
  destruct (session !! Authy.state_key providerName) as [[S| |]|]; try discriminate.
  destruct (negb _); [discriminate|].
  destruct (session !! Authy.scope_key S) as [[scope| |]|]; try discriminate.
  destruct (is_empty (Url.Get _ "code")); [discriminate|].
  destruct (OAuth2.GetAccessToken _ _ _ _) as [posted0 [token [e|]]]; [discriminate|].
  intros [= _ _ <- <-]. exists pc. cbn [Authy.tokenFromOAuth2 Authy.authy Authy.Provider].
  split; [exact Hp|]. split; [now apply Z.eqb_eq|].
  now destruct (is_empty (ProviderConfig.Callback pc)).
Qed.

(** X16: whatever its outcome, [Authorize] leaves every session entry
    other than the provider's state key and the new state's scope key as
    it was; and when it fails before a state is generated (unknown
    provider, a provider that is not OAuth2, a failing random source) the
    session is unchanged altogether. *)
Theorem Authorize_frame (a : Authy.Authy) (rand_Read : string + OAuth2.error)
    (providerName : string) (session : Authy.Session) (r : Http.Request) :
  let session' := fst (Authy.Authorize url_Parse a rand_Read providerName session r) in
  (forall key, key <> Authy.state_key providerName ->
               key <> Authy.scope_key (fst (OAuth2.NewState rand_Read)) ->
               session' !! key = session !! key)
  /\ (Authy.providers a !! providerName = None -> session' = session)
  /\ (forall providerConfig,
        Authy.providers a !! providerName = Some providerConfig ->
        ProviderData.OAuth (ProviderConfig.Provider providerConfig) <> 2 ->
        session' = session)
  /\ (forall err, rand_Read = inr err -> session' = session).
Proof.
  cbv zeta. unfold Authy.Authorize, Authy.Session_Set.
  destruct (Authy.providers a !! providerName) as [pc|].
  2:{ repeat split; try reflexivity; intros; reflexivity. }
  destruct (Z.eqb_spec (ProviderData.OAuth (ProviderConfig.Provider pc)) 2) as [Hv|Hv].
  2:{ repeat split; try reflexivity; intros; reflexivity. }
  destruct rand_Read as [rawState|err]; cbn [OAuth2.NewState fst].
  - destruct (OAuth2.AuthorizeURL _ _ _) as [u [e|]]; cbn [fst];
      (split; [intros key H1 H2; now rewrite !lookup_insert_ne by congruence|]);
      (split; [discriminate|]); (split; [|discriminate]);
      intros pc' [= <-] Hne; now destruct Hne.
  - repeat split; try reflexivity; intros; reflexivity.
Qed.

(** X17: [Authorize] writes the two session entries before it builds the
    URL: for a registered OAuth2 provider and a working random source they
    are stored even when building the URL fails (a provider that needs a
    subdomain with none configured, a base URL that does not parse). *)
Theorem Authorize_stores_before_URL (a : Authy.Authy) (rawState : string)
    (providerName : string) (providerConfig : ProviderConfig.t)
    (session : Authy.Session) (r : Http.Request) :
  Authy.providers a !! providerName = Some providerConfig ->
  ProviderData.OAuth (ProviderConfig.Provider providerConfig) = 2 ->
  let state := OAuth2.hex_EncodeToString rawState in
  fst (Authy.Authorize url_Parse a (inl rawState) providerName session r)
  = <[Authy.scope_key state :=
        Authy.VString (Strings.Join (ProviderConfig.Scope providerConfig) ",")]>
      (<[Authy.state_key providerName := Authy.VString state]> session)
  /\ snd (Authy.Authorize url_Parse a (inl rawState) providerName session r)
     = match OAuth2.AuthorizeURL url_Parse
               (ProviderConfig.with_State providerConfig state) r with
       | (_, Some err) => ("", Some err)
       | (redirectUrl, None) => (redirectUrl, None)
       end.
Proof.
  intros Hp Hv state. unfold Authy.Authorize, Authy.Session_Set.
  rewrite Hp, Hv. cbn [Z.eqb Pos.eqb OAuth2.NewState]. fold state.
  now destruct (OAuth2.AuthorizeURL _ _ _) as [u [e|]].
Qed.

(** X18: the round trip of a flow on the session: after a successful
    [Authorize] and a successful [Access] on the session it left, the
    session is the original one without the two keys of the flow; it is
    the original one when that held neither key. *)
Theorem Authorize_Access_session_roundtrip (a : Authy.Authy)
    (rand_Read : string + OAuth2.error) (providerName : string)
    (session session1 session2 : Authy.Session) (r r' : Http.Request)
    (authorizeUrl redirect : string) (posted : list OAuth2.Posted) (tok : Authy.Token) :
  Authy.Authorize url_Parse a rand_Read providerName session r
    = (session1, (authorizeUrl, None)) ->
  Authy.Access http_PostForm now a providerName session1 r'
    = (session2, posted, Returns (Some tok, redirect, None)) ->
  let state := fst (OAuth2.NewState rand_Read) in
  Url.Get (Url.Query (Http.URL r')) "state" = state
  /\ session2 = delete (Authy.scope_key state) (delete (Authy.state_key providerName) session)
  /\ (session !! Authy.state_key providerName = None ->
      session !! Authy.scope_key state = None -> session2 = session).
Proof.
  intros Hauth Hacc. cbv zeta.
  unfold Authy.Authorize in Hauth.
  destruct (Authy.providers a !! providerName) as [pc|] eqn:Hp; [|discriminate].
  destruct (ProviderData.OAuth (ProviderConfig.Provider pc) =? 2) eqn:Hv; [|discriminate].
  destruct (OAuth2.NewState rand_Read) as [state [e|]]; [discriminate|].
  destruct (OAuth2.AuthorizeURL _ _ _) as [u [e|]]; [discriminate|].
  injection Hauth as Hs1 _. unfold Authy.Session_Set in Hs1. cbn [fst].
  pose proof (state_key_scope_key providerName state) as Hkeys.
  assert (Hstate : session1 !! Authy.state_key providerName = Some (Authy.VString state)).
  { subst session1. rewrite lookup_insert_ne by congruence. apply lookup_insert_eq. }
  unfold Authy.Access, Authy.Session_Get, Authy.fail in Hacc.
  rewrite Hp, Hv, Hstate in Hacc.
  destruct (String.eqb_spec (Url.Get (Url.Query (Http.URL r')) "state") state) as [Heq|Hne];
    [|discriminate].
  cbn [negb] in Hacc.
  destruct (session1 !! Authy.scope_key state) as [[scope| |]|]; try discriminate.
  destruct (is_empty _); [discriminate|].
  destruct (OAuth2.GetAccessToken _ _ _ _) as [posted0 [token [e|]]]; [discriminate|].
  injection Hacc as Hs2 _ _ _. unfold Authy.Session_Delete in Hs2.
  assert (Hfinal : session2
                   = delete (Authy.scope_key state)
                       (delete (Authy.state_key providerName) session)).
  { subst session2 session1.
    rewrite (delete_insert_ne _ (Authy.state_key providerName)) by congruence.
    now rewrite delete_insert_eq, delete_insert_eq. }
  split; [exact Heq|]. split; [exact Hfinal|].
  intros H1 H2. rewrite Hfinal, (delete_id _ _ H1). now apply delete_id.
Qed.

(** X19: the URL a successful [Authorize] returns is built from the
    provider's configuration with the very state it stored in the session;
    unless the caller supplies a custom parameter named [state], its query
    carries that state as the value of [state] (and omits the key only for
    an empty state). *)
Theorem Authorize_URL_carries_stored_state (a : Authy.Authy)
    (rand_Read : string + OAuth2.error) (providerName : string)
    (session session1 : Authy.Session) (r : Http.Request) (authorizeUrl : string) :
  Authy.Authorize url_Parse a rand_Read providerName session r
    = (session1, (authorizeUrl, None)) ->
  exists providerConfig state,
    Authy.providers a !! providerName = Some providerConfig
    /\ session1 !! Authy.state_key providerName = Some (Authy.VString state)
    /\ OAuth2.AuthorizeURL url_Parse (ProviderConfig.with_State providerConfig state) r
       = (authorizeUrl, None)
    /\ (ProviderConfig.CustomParameters providerConfig !! "state" = None ->
        OAuth2.authorize_values (ProviderConfig.with_State providerConfig state) r !! "state"
        = if is_empty state then None else Some [state]).
Proof.
  intros Hauth. unfold Authy.Authorize in Hauth.
  destruct (Authy.providers a !! providerName) as [pc|] eqn:Hp; [|discriminate].
  destruct (ProviderData.OAuth (ProviderConfig.Provider pc) =? 2) eqn:Hv; [|discriminate].
  destruct (OAuth2.NewState rand_Read) as [state [e|]]; [discriminate|].
  destruct (OAuth2.AuthorizeURL _ _ _) as [u [e|]] eqn:Hurl; [discriminate|].
  injection Hauth as Hs1 Hu. unfold Authy.Session_Set in Hs1. subst u.
  exists pc, state. split; [reflexivity|]. split.
  { subst session1.
    rewrite lookup_insert_ne by (apply not_eq_sym, state_key_scope_key).
    apply lookup_insert_eq. }
  split; [exact Hurl|].
  intros Hnone. rewrite authorize_values_lookup. cbv zeta.
  cbn [ProviderConfig.with_State ProviderConfig.CustomParameters]. rewrite Hnone.
  rewrite authorization_values_lookup. reflexivity.
Qed.

End OrchestratorProperties.

(** ** Refreshing a token *)

Section RefreshProperties.

Variable http_PostForm : string -> Url.Values -> string + OAuth2.error.
Variable now : Time.Time.

(** X20: whenever [Refresh] returns an error (not refreshable, unknown
    provider, a failed post, a provider error, an unusable response) the
    token is left exactly as it was. *)
Theorem Refresh_failure_leaves_token (t t' : Authy.Token)
    (posted : list OAuth2.Posted) (err : OAuth2.error) :
  Authy.Refresh http_PostForm now t = (t', posted, Some err) -> t' = t.
Proof.
  unfold Authy.Refresh.
  destruct (negb (Authy.IsRefreshable t)); [now intros [= <- _ _]|].
  destruct (Authy.providers (Authy.authy t) !! Authy.Provider t) as [pc|];
    [|now intros [= <- _ _]].
  destruct (Authy.Version t =? 2); [|discriminate].
  destruct (OAuth2.Refresh _ _ _ _) as [posted0 [newToken [e|]]];
    [now intros [= <- _ _] | discriminate].
Qed.

(** X21: a successful [Refresh] replaces the value, the type, the expiry
    and the refresh token by those of the provider's answer and leaves the
    engine, the version, the provider and the scope as they were; the new
    value and type are not empty; and the token stays refreshable exactly
    when the answer carried a refresh token. *)
Theorem Refresh_success_updates (t t' : Authy.Token) (posted : list OAuth2.Posted) :
  Authy.Refresh http_PostForm now t = (t', posted, None) ->
  exists providerConfig newToken,
    Authy.providers (Authy.authy t) !! Authy.Provider t = Some providerConfig
    /\ OAuth2.Refresh http_PostForm now providerConfig (Authy.Token_oauth2 t)
       = (posted, (newToken, None))
    /\ t' = Authy.mkToken (Authy.authy t) (Authy.Version t) (Authy.Provider t)
              (OAuth2.AccessToken newToken) (Authy.Scope t) (OAuth2.Type_ newToken)
              (OAuth2.Expires newToken) (OAuth2.RefreshToken newToken)
    /\ is_empty (Authy.Value t') = false /\ is_empty (Authy.Type_ t') = false
    /\ Authy.IsRefreshable t' = negb (is_empty (OAuth2.RefreshToken newToken)).
Proof.
  unfold Authy.Refresh.
  destruct (Authy.IsRefreshable t) eqn:Hr; [|discriminate]. cbn [negb].
  unfold Authy.IsRefreshable in Hr. apply andb_prop in Hr as [Hv _]. rewrite Hv.
  destruct (Authy.providers (Authy.authy t) !! Authy.Provider t) as [pc|]; [|discriminate].
  destruct (OAuth2.Refresh _ _ _ _) as [posted0 [newToken [e|]]] eqn:E; [discriminate|].
  intros [= <- <-]. exists pc, newToken. split; [reflexivity|]. split; [exact E|].
  split; [reflexivity|].
  unfold OAuth2.Refresh in E. injection E as _ E. apply read_token_ok in E as [Ha Ht].
  cbn [Authy.Value Authy.Type_]. split; [exact Ha|]. split; [exact Ht|].
  unfold Authy.IsRefreshable. cbn [Authy.Version Authy.RefreshToken]. now rewrite Hv.
Qed.

(** X22: through the token's own [Refresh], the form posted for a
    refreshable token of a registered provider goes to that provider's
    access-token URL and has exactly the keys [grant_type] and
    [refresh_token]: no client id, no client secret. *)
Theorem Refresh_form_has_no_client_credentials (t : Authy.Token)
    (providerConfig : ProviderConfig.t) :
  Authy.IsRefreshable t = true ->
  Authy.providers (Authy.authy t) !! Authy.Provider t = Some providerConfig ->
  exists form,
    snd (fst (Authy.Refresh http_PostForm now t))
      = [(ProviderData.AccessURL (ProviderConfig.Provider providerConfig), form)]
    /\ dom form = {["grant_type"; "refresh_token"]}
    /\ form !! "client_id" = None /\ form !! "client_secret" = None.
Proof.
  intros Hr Hp. unfold Authy.Refresh. rewrite Hr, Hp.
  unfold Authy.IsRefreshable in Hr. apply andb_prop in Hr as [Hv _]. rewrite Hv.
  unfold OAuth2.Refresh.
  destruct (OAuth2.read_token _ _ _) as [newToken [e|]]; cbn [negb fst snd];
    (eexists; split; [reflexivity|]);
    (split; [|split; vm_compute; reflexivity]);
    unfold OAuth2.query_Values_refreshTokenRequest;
    cbn [OAuth2.rt_GrantType OAuth2.rt_RefreshToken];
    (rewrite (Add_fresh ∅ "grant_type") by apply lookup_empty);
    (rewrite (Add_fresh _ "refresh_token") by (now rewrite lookup_insert_ne));
    rewrite !dom_insert_L, dom_empty_L; set_solver.
Qed.

End RefreshProperties.

(** ** The transport of token.go with an expired token *)

(** X24: with an expired token [RoundTrip] passes the request through: the
    clone has, under every name, a copy of what the caller's request has
    (no [Authorization] header is added), in a map and slices of its own,
    and the caller's request reads as before. *)
Theorem RoundTrip_expired_passes_through (now : Time.Time) (tt : Transport.TokenTransport)
    (h : Mem.heap) (req : Transport.Request) :
  Authy.Expired now (Transport.token tt) = true ->
  Transport.valid_request h req = true ->
  let newReq := Transport.mkRequest (Transport.Method req) (Transport.URL req)
                                    (Transport.Host req) (Some (length (Mem.maps h))) in
  exists h',
    Transport.RoundTrip now tt h req = Returns (h', newReq)
    /\ (forall name, Transport.header h' newReq name = Transport.header h req name)
    /\ (forall name s, Mem.map_at h' (length (Mem.maps h)) !! name = Some s ->
          (length (Mem.arrays h) <= Mem.arr s)%nat)
    /\ (forall name, Transport.header h' req name = Transport.header h req name).
Proof.
  intros Hexpired Hvalid newReq.
  destruct (copy_headers_spec h req Hvalid) as (Hlen & Hold & Hext & Hcopy & Hrange).
  unfold Transport.RoundTrip. rewrite Hexpired. cbn [negb Mem.make_map].
  eexists. split; [reflexivity|]. split; [exact Hcopy|]. split.
  - intros name s Hs. now apply (Hrange name).
  - now apply header_preserved.
Qed.

(** ** The scope kept in the session *)

Lemma HasPrefix_nil (s : string) : Strings.HasPrefix s "" = true.
Proof. now destruct s. Qed.

Lemma split_go_comma_free (e cur rest : string) :
  all_bytes (fun c => negb (Ascii.eqb "," c)) e = true ->
  Strings.split_go "," 0 cur (e +:+ rest) = Strings.split_go "," 0 (cur +:+ e) rest.
Proof.
  revert cur. induction e as [|c e IH]; intros cur Hfree.
  - now rewrite append_nil_r.
  - cbn [all_bytes] in Hfree. apply andb_prop in Hfree as [Hc Hfree].
    apply negb_true_iff in Hc.
    change (String c e +:+ rest) with (String c (e +:+ rest)).
    change (Strings.split_go "," 0 cur (String c (e +:+ rest)))
      with (if Ascii.eqb "," c && Strings.HasPrefix (e +:+ rest) ""
            then cur :: Strings.split_go "," 0 "" (e +:+ rest)
            else Strings.split_go "," 0 (cur +:+ String c "") (e +:+ rest)).
    rewrite Hc. cbn [andb]. rewrite (IH _ Hfree), append_assoc. reflexivity.
Qed.

Lemma split_go_at_comma (cur rest : string) :
  Strings.split_go "," 0 cur ("," +:+ rest) = cur :: Strings.split_go "," 0 "" rest.
Proof.
  change (Strings.split_go "," 0 cur ("," +:+ rest))
    with (if Ascii.eqb "," "," && Strings.HasPrefix rest ""
          then cur :: Strings.split_go "," 0 "" rest
          else Strings.split_go "," 0 (cur +:+ ",") rest).
  now rewrite HasPrefix_nil.
Qed.

(** X25: the scope string [Authorize] stores, the requested scopes joined
    with a comma, splits back on the comma, as [Access] splits it, into
    the requested list, whenever that list is not empty and no scope in it
    contains a comma. *)
Theorem scope_join_split_roundtrip (scope : list string) :
  scope <> [] ->
  Forall (fun e => all_bytes (fun c => negb (Ascii.eqb "," c)) e = true) scope ->
  Strings.Split (Strings.Join scope ",") "," = scope.
Proof.
  intros Hne Hfree. unfold Strings.Split. cbn [is_empty].
  destruct scope as [|e rest]; [now destruct Hne|]. clear Hne.
  revert e Hfree. induction rest as [|e2 rest IH]; intros e Hfree.
  - apply Forall_cons in Hfree as [He _]. cbn [Strings.Join].
    rewrite <- (append_nil_r e) at 1. rewrite (split_go_comma_free e "" "" He).
    reflexivity.
  - apply Forall_cons in Hfree as [He Hrest].
    change (Strings.Join (e :: e2 :: rest) ",")
      with (e +:+ "," +:+ Strings.Join (e2 :: rest) ",").
    rewrite (split_go_comma_free e "" _ He), split_go_at_comma.
    now rewrite (IH e2 Hrest).
Qed.

Lemma scope_join_split_roundtrip_witness :
  Strings.Split (Strings.Join ["repo"; "user:email"] ",") "," = ["repo"; "user:email"].
Proof.
  apply (scope_join_split_roundtrip ["repo"; "user:email"]); [discriminate|].
  repeat constructor.
Defined.

(** ** Building the engine *)





(** ** The login redirect *)

Lemma QueryUnescape_escape_step (c : ascii) (e r : string) :
  Url.QueryUnescape e = Some r ->
  Url.QueryUnescape
    (if Ascii.eqb c " " then String "+" e
     else if Url.shouldEscape c Url.encodeQueryComponent
     then String "%" (String (Url.upperhex (Z.shiftr (byte_val c) 4))
                        (String (Url.upperhex (Z.land (byte_val c) 15)) e))
     else String c e)
  = Some (String c r).
Proof.
  intros H.
  destruct c as [[] [] [] [] [] [] [] []]; simpl; rewrite H; reflexivity.
Qed.

Lemma escape_query_cons (c : ascii) (s : string) :
  Url.QueryEscape (String c s)
  = if Ascii.eqb c " " then String "+" (Url.QueryEscape s)
    else if Url.shouldEscape c Url.encodeQueryComponent
    then String "%" (String (Url.upperhex (Z.shiftr (byte_val c) 4))
                       (String (Url.upperhex (Z.land (byte_val c) 15)) (Url.QueryEscape s)))
    else String c (Url.QueryEscape s).
Proof.
  unfold Url.QueryEscape. cbn [Url.escape]. now rewrite andb_true_r.
Qed.

Lemma QueryUnescape_QueryEscape (s : string) :
  Url.QueryUnescape (Url.QueryEscape s) = Some s.
Proof.
  induction s as [|c s IH]; [reflexivity|].
  rewrite escape_query_cons. now apply QueryUnescape_escape_step.
Qed.

Lemma query_safe_escape_step (c : ascii) (e : string) :
  all_bytes query_safe e = true ->
  all_bytes query_safe
    (if Ascii.eqb c " " then String "+" e
     else if Url.shouldEscape c Url.encodeQueryComponent
     then String "%" (String (Url.upperhex (Z.shiftr (byte_val c) 4))
                        (String (Url.upperhex (Z.land (byte_val c) 15)) e))
     else String c e)
  = true.
Proof.
  intros H. destruct c as [[] [] [] [] [] [] [] []]; simpl; exact H.
Qed.

Lemma QueryEscape_query_safe (s : string) :
  all_bytes query_safe (Url.QueryEscape s) = true.
Proof.
  induction s as [|c s IH]; [reflexivity|].
  rewrite escape_query_cons. now apply query_safe_escape_step.
Qed.

(** X27: [LoginRequired] redirects exactly when the session holds no
    token, to the login path with one parameter [next]; its value is made
    of unreserved bytes, percent escapes and plus signs only, so it cannot
    end the parameter or start another, and it decodes back to the request
    URI of the request that was refused. *)
Theorem LoginRequired_next_roundtrip (PathLogin : string) (s : Authy.Session)
    (r : Http.Request) :
  match Martini.LoginRequired PathLogin s r with
  | Some target =>
      s !! "authy.token" = None
      /\ exists next,
           target = PathLogin +:+ "?next=" +:+ next
           /\ all_bytes query_safe next = true
           /\ Url.QueryUnescape next = Some (Url.RequestURI (Http.URL r))
  | None => is_Some (s !! "authy.token")
  end.
Proof.
  unfold Martini.LoginRequired, Authy.Session_Get.
  destruct (s !! "authy.token") as [v|]; [now exists v|].
  split; [reflexivity|]. eexists. split; [reflexivity|].
  split; [apply QueryEscape_query_safe | apply QueryUnescape_QueryEscape].
Qed.

(** ** Failures of the URL builder *)

(** X28: [AuthorizeURL] never returns a URL together with an error.  It
    fails in two cases only: the provider needs a subdomain and none is
    configured (the error names the provider, and the base URL is not even
    parsed), or the base URL, with the subdomain put in when needed, does
    not parse (the parser's error is returned as it is).  Otherwise the
    result is the parsed base URL with its query replaced by the encoded
    values. *)
Theorem AuthorizeURL_failures (url_Parse : string -> Url.URL + OAuth2.error)
    (config : ProviderConfig.t) (r : Http.Request) :
  let P := ProviderConfig.Provider config in
  let baseUrl :=
    if ProviderData.Subdomain P
    then Strings.Replace (ProviderData.AuthorizeURL P) "[subdomain]"
           (ProviderConfig.Subdomain config)
    else ProviderData.AuthorizeURL P in
  match OAuth2.AuthorizeURL url_Parse config r with
  | (dest, Some err) =>
      dest = ""
      /\ ((ProviderData.Subdomain P = true /\ ProviderConfig.Subdomain config = ""
           /\ err = OAuth2.errors_New
                      ("provider " +:+ ProviderData.Name P
                       +:+ " expects the config to contain your subdomain"))
          \/ ((ProviderData.Subdomain P = true -> ProviderConfig.Subdomain config <> "")
              /\ url_Parse baseUrl = inr err))
  | (dest, None) =>
      (ProviderData.Subdomain P = true -> ProviderConfig.Subdomain config <> "")
      /\ exists authUrl,
           url_Parse baseUrl = inl authUrl
           /\ dest = Url.String_
                       (Url.mkURL (Url.Scheme authUrl) (Url.Host authUrl) (Url.Path authUrl)
                                  (Url.Encode (OAuth2.authorize_values config r)))
  end.
Proof.
  cbv zeta. unfold OAuth2.AuthorizeURL.
  destruct (ProviderData.Subdomain (ProviderConfig.Provider config)) eqn:Hsub; cbn [andb].
  - destruct (ProviderConfig.Subdomain config) as [|c sub] eqn:Hcfg; cbn [is_empty].
    + split; [reflexivity|]. left. now repeat split.
    + destruct (url_Parse _) as [authUrl|err] eqn:Hparse.
      * split; [discriminate|]. now exists authUrl.
      * split; [reflexivity|]. right. split; [discriminate | reflexivity].
  - destruct (url_Parse _) as [authUrl|err] eqn:Hparse.
    + split; [discriminate|]. now exists authUrl.
    + split; [reflexivity|]. right. split; [discriminate | reflexivity].
Qed.

(** ** The token of the earlier source *)

(** X29: in the earlier source (part_001) the token a successful [Access]
    returns keeps only the value and the scope of the exchanged token: it
    has no expiry and no provider, so [Expired] is false for it at every
    clock reading, whatever [expires_in] the provider sent. *)
Theorem Legacy_Access_token_never_expires
    (http_PostForm : string -> Url.Values -> string + OAuth2.error) (now : Time.Time)
    (a : Authy.Authy) (providerName : string) (session session' : Authy.Session)
    (r : Http.Request) (posted : list OAuth2.Posted) (tok : Legacy.Token)
    (redirect : string) :
  Legacy.Access http_PostForm now a providerName session r
    = (session', posted, Returns (tok, redirect, None)) ->
  Legacy.Expires tok = None /\ Legacy.Provider tok = ""
  /\ is_empty (Legacy.Value tok) = false
  /\ forall later, Legacy.Expired later tok = false.
Proof.
  unfold Legacy.Access, Authy.Session_Get, Legacy.fail.
  destruct (Authy.providers a !! providerName) as [pc|]; [|discriminate].
  destruct (ProviderData.OAuth (ProviderConfig.Provider pc) =? 2); [|discriminate].
  destruct (session !! Authy.state_key providerName) as [[S| |]|]; try discriminate.
  destruct (negb _); [discriminate|].
  destruct (session !! Authy.scope_key S) as [[scope| |]|]; try discriminate.
  destruct (is_empty _); [discriminate|].
  unfold OAuth2.GetAccessToken.
  destruct (OAuth2.read_token _ _ _) as [token [e|]] eqn:E; [discriminate|].
  apply read_token_ok in E as [Hv _].
  intros [= _ _ <- _]. now repeat split.
Qed.

Lemma Legacy_Access_token_never_expires_witness :
  Legacy.Expires (Legacy.mkToken "" "abc" ["repo"; "user:email"] None) = None
  /\ Legacy.Provider (Legacy.mkToken "" "abc" ["repo"; "user:email"] None) = ""
  /\ is_empty (Legacy.Value (Legacy.mkToken "" "abc" ["repo"; "user:email"] None)) = false
  /\ forall later,
       Legacy.Expired later (Legacy.mkToken "" "abc" ["repo"; "user:email"] None) = false.
Proof.
  apply (Legacy_Access_token_never_expires Ex.bearer_reply 1000 (Ex.engine Ex.github_k1)
           "github" (Ex.session_with "s3cr3t" "repo,user:email") ∅
           (Ex.callback_request "s3cr3t")
           (fst (OAuth2.GetAccessToken Ex.bearer_reply 1000 Ex.github_k1
                   (Ex.callback_request "s3cr3t")))
           (Legacy.mkToken "" "abc" ["repo"; "user:email"] None) "/generic_callback").
  vm_compute. reflexivity.
Defined.

(** ** Instances *)

Lemma Access_posts_only_after_state_check_witness :
  exists S providerConfig,
    Authy.providers (Ex.engine Ex.github_k1) !! "github" = Some providerConfig
    /\ Ex.session_with "s3cr3t" "repo,user:email" !! Authy.state_key "github"
       = Some (Authy.VString S)
    /\ Url.Get (Url.Query (Http.URL (Ex.callback_request "s3cr3t"))) "state" = S
    /\ is_empty (Url.Get (Url.Query (Http.URL (Ex.callback_request "s3cr3t"))) "code") = false
    /\ snd (fst (Authy.Access Ex.bearer_reply 1000 (Ex.engine Ex.github_k1) "github"
                   (Ex.session_with "s3cr3t" "repo,user:email")
                   (Ex.callback_request "s3cr3t")))
       = fst (OAuth2.GetAccessToken Ex.bearer_reply 1000 providerConfig
                (Ex.callback_request "s3cr3t")).
Proof.
  apply (Access_posts_only_after_state_check Ex.bearer_reply 1000 (Ex.engine Ex.github_k1)
           "github" (Ex.session_with "s3cr3t" "repo,user:email")
           (Ex.callback_request "s3cr3t")).
  vm_compute. discriminate.
Defined.

Lemma Access_success_redirect_witness :
  exists providerConfig,
    Authy.providers (Authy.authy Ex.exchanged_token) !! Authy.Provider Ex.exchanged_token
      = Some providerConfig
    /\ ProviderData.OAuth (ProviderConfig.Provider providerConfig) = 2
    /\ "/generic_callback"
       = (if is_empty (ProviderConfig.Callback providerConfig)
          then Authy.Callback (Authy.config (Ex.engine Ex.github_k1))
          else ProviderConfig.Callback providerConfig).
Proof.
  apply (Access_success_redirect Ex.bearer_reply 1000 (Ex.engine Ex.github_k1) "github"
           (Ex.session_with "s3cr3t" "repo,user:email") ∅ (Ex.callback_request "s3cr3t")
           (fst (OAuth2.GetAccessToken Ex.bearer_reply 1000 Ex.github_k1
                   (Ex.callback_request "s3cr3t")))
           Ex.exchanged_token "/generic_callback").
  vm_compute. reflexivity.
Defined.

Lemma Authorize_stores_before_URL_witness :
  fst (Authy.Authorize Ex.url_Parse Ex.zendesk_engine (inl "0123456789abcdef") "zendesk" ∅
         Ex.login_request)
  = <[Authy.scope_key (OAuth2.hex_EncodeToString "0123456789abcdef") :=
        Authy.VString (Strings.Join (ProviderConfig.Scope Ex.zendesk) ",")]>
      (<[Authy.state_key "zendesk" :=
           Authy.VString (OAuth2.hex_EncodeToString "0123456789abcdef")]> ∅)
  /\ snd (Authy.Authorize Ex.url_Parse Ex.zendesk_engine (inl "0123456789abcdef") "zendesk" ∅
            Ex.login_request)
     = match OAuth2.AuthorizeURL Ex.url_Parse
               (ProviderConfig.with_State Ex.zendesk
                  (OAuth2.hex_EncodeToString "0123456789abcdef")) Ex.login_request with
       | (_, Some err) => ("", Some err)
       | (redirectUrl, None) => (redirectUrl, None)
       end.
Proof.
  apply (Authorize_stores_before_URL Ex.url_Parse Ex.zendesk_engine "0123456789abcdef"
           "zendesk" Ex.zendesk ∅ Ex.login_request).
  - vm_compute. reflexivity.
  - reflexivity.
Defined.

Lemma Authorize_Access_session_roundtrip_witness :
  Url.Get (Url.Query (Http.URL (Ex.callback_request Ex.state0))) "state"
    = fst (OAuth2.NewState (inl "0123456789abcdef"))
  /\ (∅ : Authy.Session)
     = delete (Authy.scope_key (fst (OAuth2.NewState (inl "0123456789abcdef"))))
         (delete (Authy.state_key "github") ∅)
  /\ ((∅ : Authy.Session) !! Authy.state_key "github" = None ->
      (∅ : Authy.Session) !! Authy.scope_key (fst (OAuth2.NewState (inl "0123456789abcdef")))
        = None ->
      (∅ : Authy.Session) = ∅).
Proof.
  apply (Authorize_Access_session_roundtrip Ex.url_Parse Ex.noscope_reply 1000
           (Ex.engine Ex.github_noscope) (inl "0123456789abcdef") "github"
           ∅ (Ex.session_with Ex.state0 "") ∅ Ex.login_request
           (Ex.callback_request Ex.state0)
           (fst (OAuth2.AuthorizeURL Ex.url_Parse
                   (ProviderConfig.with_State Ex.github_noscope Ex.state0) Ex.login_request))
           "/generic_callback"
           (fst (OAuth2.GetAccessToken Ex.noscope_reply 1000 Ex.github_noscope
                   (Ex.callback_request Ex.state0)))
           Ex.backfilled_token).
  - vm_compute. reflexivity.
  - vm_compute. reflexivity.
Defined.

Lemma Authorize_URL_carries_stored_state_witness :
  exists providerConfig state,
    Authy.providers (Ex.engine Ex.github_k1) !! "github" = Some providerConfig
    /\ Ex.session_with Ex.state0 "repo,user:email" !! Authy.state_key "github"
       = Some (Authy.VString state)
    /\ OAuth2.AuthorizeURL Ex.url_Parse (ProviderConfig.with_State providerConfig state)
         Ex.login_request
       = (fst (OAuth2.AuthorizeURL Ex.url_Parse
                 (ProviderConfig.with_State Ex.github_k1 Ex.state0) Ex.login_request), None)
    /\ (ProviderConfig.CustomParameters providerConfig !! "state" = None ->
        OAuth2.authorize_values (ProviderConfig.with_State providerConfig state)
          Ex.login_request !! "state"
        = if is_empty state then None else Some [state]).
Proof.
  apply (Authorize_URL_carries_stored_state Ex.url_Parse (Ex.engine Ex.github_k1)
           (inl "0123456789abcdef") "github" ∅ (Ex.session_with Ex.state0 "repo,user:email")
           Ex.login_request).
  vm_compute. reflexivity.
Defined.

Lemma Refresh_failure_leaves_token_witness :
  Ex.token 2 None "r1" = Ex.token 2 None "r1".
Proof.
  apply (Refresh_failure_leaves_token (Ex.provider_says "error=invalid_grant") 1000
           (Ex.token 2 None "r1") (Ex.token 2 None "r1")
           (fst (OAuth2.Refresh (Ex.provider_says "error=invalid_grant") 1000 Ex.github_k1
                   (Authy.Token_oauth2 (Ex.token 2 None "r1"))))
           (OAuth2.oauth2_Error
              (OAuth2.NewError (fst (Url.ParseQuery "error=invalid_grant"))))).
  vm_compute. reflexivity.
Defined.

Lemma Refresh_success_updates_witness :
  exists providerConfig newToken,
    Authy.providers (Authy.authy (Ex.token 2 None "r1")) !! Authy.Provider (Ex.token 2 None "r1")
      = Some providerConfig
    /\ OAuth2.Refresh Ex.noscope_reply 1000 providerConfig
         (Authy.Token_oauth2 (Ex.token 2 None "r1"))
       = (fst (OAuth2.Refresh Ex.noscope_reply 1000 Ex.github_k1
                 (Authy.Token_oauth2 (Ex.token 2 None "r1"))),
          (newToken, None))
    /\ Ex.token 2 None ""
       = Authy.mkToken (Authy.authy (Ex.token 2 None "r1")) (Authy.Version (Ex.token 2 None "r1"))
           (Authy.Provider (Ex.token 2 None "r1")) (OAuth2.AccessToken newToken)
           (Authy.Scope (Ex.token 2 None "r1")) (OAuth2.Type_ newToken)
           (OAuth2.Expires newToken) (OAuth2.RefreshToken newToken)
    /\ is_empty (Authy.Value (Ex.token 2 None "")) = false
    /\ is_empty (Authy.Type_ (Ex.token 2 None "")) = false
    /\ Authy.IsRefreshable (Ex.token 2 None "")
       = negb (is_empty (OAuth2.RefreshToken newToken)).
Proof.
  apply (Refresh_success_updates Ex.noscope_reply 1000 (Ex.token 2 None "r1")
           (Ex.token 2 None "")
           (fst (OAuth2.Refresh Ex.noscope_reply 1000 Ex.github_k1
                   (Authy.Token_oauth2 (Ex.token 2 None "r1"))))).
  vm_compute. reflexivity.
Defined.

Lemma Refresh_form_has_no_client_credentials_witness :
  exists form,
    snd (fst (Authy.Refresh Ex.noscope_reply 1000 (Ex.token 2 None "r1")))
      = [(ProviderData.AccessURL (ProviderConfig.Provider Ex.github_k1), form)]
    /\ dom form = {["grant_type"; "refresh_token"]}
    /\ form !! "client_id" = None /\ form !! "client_secret" = None.
Proof.
  apply (Refresh_form_has_no_client_credentials Ex.noscope_reply 1000
           (Ex.token 2 None "r1") Ex.github_k1).
  - reflexivity.
  - vm_compute. reflexivity.
Defined.

Lemma RoundTrip_sets_header_on_clone_witness :
  exists h',
    Transport.RoundTrip 1000 (Transport.mkTokenTransport (Ex.token 2 None "")) Ex.heap0
                        Ex.request0
      = Returns (h', Transport.mkRequest "GET" (Url.mkURL "https" "api.github.com" "/user" "")
                       "api.github.com" (Some 1%nat))
    /\ Transport.header h'
         (Transport.mkRequest "GET" (Url.mkURL "https" "api.github.com" "/user" "")
            "api.github.com" (Some 1%nat)) "Authorization"
       = Some ["Bearer abc"]
    /\ Transport.header h' Ex.request0 "Authorization" = None
    /\ Transport.header h' Ex.request0 "Accept" = Some ["text/html"].
Proof.
  destruct (RoundTrip_sets_header_on_clone 1000
              (Transport.mkTokenTransport (Ex.token 2 None "")) Ex.heap0 Ex.request0
              eq_refl eq_refl)
    as (h' & Hrun & Hauth & _ & _ & _ & _ & Horig).
  exists h'. split; [exact Hrun|]. split; [exact Hauth|].
  split; [rewrite Horig | rewrite Horig]; reflexivity.
Defined.

Lemma RoundTrip_expired_passes_through_witness :
  exists h',
    Transport.RoundTrip 1000 (Transport.mkTokenTransport (Ex.token 2 (Some 500) "")) Ex.heap0
                        Ex.request0
      = Returns (h', Transport.mkRequest "GET" (Url.mkURL "https" "api.github.com" "/user" "")
                       "api.github.com" (Some 1%nat))
    /\ Transport.header h'
         (Transport.mkRequest "GET" (Url.mkURL "https" "api.github.com" "/user" "")
            "api.github.com" (Some 1%nat)) "Authorization"
       = None.
Proof.
  destruct (RoundTrip_expired_passes_through 1000
              (Transport.mkTokenTransport (Ex.token 2 (Some 500) "")) Ex.heap0 Ex.request0
              eq_refl eq_refl)
    as (h' & Hrun & Hcopy & _).
  exists h'. split; [exact Hrun|]. rewrite Hcopy. reflexivity.
Defined.
